(** * Commodities, FX and compliance-carbon dashboard

    A shallow embedding of [commodities_dashboard.py]: the source fetcher
    ([fetch_yfinance], [fetch_all_data]), the summary builder
    ([summary_from_yf_dict]), the currency conversion engine
    ([compliance_summary_table]) and the snapshot report generator
    ([generate_pdf_snapshot]).

    Modelling conventions.
    - A Python [dict] is an association list in insertion order ([dict]);
      [d[k] = v] is [dict_set], which overwrites in place or appends.
    - A Python [float] is an exact rational ([Q]); NaN cells are outside the
      model.  [round(x, n)] is round-half-to-even at [n] decimals.
    - An exception is a value of [result]; [x <- e ;; k] sequences two
      computations and stops at the first exception.
    - [yf.download] and [DataFrame.dropna] are library calls: they are
      parameters of the sections that use them.  So is what
      [PdfPages.close()] does on an object that is already closed, which
      differs between matplotlib releases. *)

From Stdlib Require Import List String Ascii Bool Arith ZArith QArith Qround Lia.
Import ListNotations.

Set Implicit Arguments.

Local Open Scope string_scope.
Local Open Scope list_scope.

(* ================================================================== *)
(** ** Python primitives *)

Module Py.

Inductive exn : Type :=
| IndexError
| ZeroDivisionError
| ValueError
| AttributeError.

Inductive result (A : Type) : Type :=
| Ok (a : A)
| Raise (e : exn).

Arguments Ok {A} a.
Arguments Raise {A} e.

Definition bind {A B : Type} (m : result A) (k : A -> result B) : result B :=
  match m with
  | Ok a => k a
  | Raise e => Raise e
  end.

(** [needle in hay] on strings. *)
Fixpoint str_in (needle hay : string) : bool :=
  String.prefix needle hay ||
  match hay with
  | EmptyString => false
  | String _ tl => str_in needle tl
  end.

(** [seq.iloc[i]]: positional access, negative positions count from the
    end, a position out of range raises [IndexError]. *)
Definition iloc {A : Type} (l : list A) (i : Z) : result A :=
  let n := Z.of_nat (List.length l) in
  let j := if (i <? 0)%Z then (n + i)%Z else i in
  if ((0 <=? j) && (j <? n))%Z
  then match nth_error l (Z.to_nat j) with
       | Some a => Ok a
       | None => Raise IndexError
       end
  else Raise IndexError.

(** [a / b] on floats. *)
Definition div (a b : Q) : result Q :=
  if Qeq_bool b 0 then Raise ZeroDivisionError else Ok (a / b)%Q.

(** Nearest integer, ties to the even neighbour. *)
Definition round_half_even (x : Q) : Z :=
  let f := Qfloor x in
  match (x - inject_Z f ?= 1 # 2)%Q with
  | Lt => f
  | Gt => (f + 1)%Z
  | Eq => if Z.even f then f else (f + 1)%Z
  end.

(** [round(x, ndigits)]. *)
Definition round (x : Q) (ndigits : nat) : Q :=
  let scale := inject_Z (10 ^ Z.of_nat ndigits) in
  Qred (inject_Z (round_half_even (x * scale)) / scale).

(** [opt if opt is not None else d], as in [meta.get(key, d)]. *)
Definition get_default {A : Type} (d : A) (o : option A) : A :=
  match o with
  | Some a => a
  | None => d
  end.

End Py.

Import Py.

Notation "x <- e ;; k" := (bind e (fun x => k))
  (at level 61, e at next level, right associativity).

(* ================================================================== *)
(** ** Dictionaries in insertion order *)

Definition dict (V : Type) : Type := list (string * V).

Section Dict.
Variable V : Type.

(** [d.get(k)]: [None] when [k] is not a key. *)
Fixpoint dict_get (d : dict V) (k : string) : option V :=
  match d with
  | [] => None
  | (k', v) :: rest => if String.eqb k' k then Some v else dict_get rest k
  end.

(** [k in d]. *)
Definition dict_in (k : string) (d : dict V) : bool :=
  match dict_get d k with
  | Some _ => true
  | None => false
  end.

(** [d[k] = v]: an existing key keeps its position, a new key goes last. *)
Fixpoint dict_set (d : dict V) (k : string) (v : V) : dict V :=
  match d with
  | [] => [(k, v)]
  | (k', v') :: rest =>
      if String.eqb k' k then (k', v) :: rest
      else (k', v') :: dict_set rest k v
  end.

Definition keys (d : dict V) : list string := map fst d.

End Dict.

(* ================================================================== *)
(** ** Data model *)

(** One daily row of a downloaded frame. *)
Record Bar : Type := mkBar {
  close : Q;
  volume : Z
}.

(** The frame [yf.download] returns: its rows in ascending date order and
    whether it carries a ["Volume"] column. *)
Record DataFrame : Type := mkDataFrame {
  rows : list Bar;
  has_volume : bool
}.

(** [df.empty] *)
Definition empty (df : DataFrame) : bool :=
  match rows df with
  | [] => true
  | _ :: _ => false
  end.

(** [len(df)] *)
Definition len (df : DataFrame) : Z := Z.of_nat (List.length (rows df)).

(** [df["Close"]] and [df["Volume"]] *)
Definition Close (df : DataFrame) : list Q := map close (rows df).
Definition Volume_col (df : DataFrame) : list Z := map volume (rows df).

(** What a call of [yf.download] does: it raises (with a message), or it
    returns [None] or a frame. *)
Inductive yf_result : Type :=
| yf_raises (msg : string)
| yf_returns (df : option DataFrame).

(** A row of the commodities and FX summary tables. *)
Record SummaryRow : Type := mkSummaryRow {
  Asset : string;
  Last_Price : option Q;
  Change_pct : option Q;
  Volume : option Z
}.

(** A value of [compliance_data]: [None] in [unit_] or [source_note] means
    the key is not in the record. *)
Record ComplianceMeta : Type := mkMeta {
  price : option Q;
  history : option DataFrame;
  unit_ : option string;
  source_note : option string
}.

(** A row of the compliance summary table. *)
Record ComplianceRow : Type := mkComplianceRow {
  Market : string;
  Unit : string;
  Last_Price_local : option Q;
  Last_Price_USD : option Q;
  Source : string;
  Note : string
}.

(* ================================================================== *)
(** ** Instrument catalogs *)

Definition commodities : dict (option string) :=
  [ ("Crude Oil (WTI)", Some "CL=F");
    ("Brent Oil", Some "BZ=F");
    ("Natural Gas (Henry Hub, US)", Some "NG=F");
    ("EU Gas (TTF)", Some "TTF=F");
    ("LNG (JKM, Asia proxy)", Some "JKM=F");
    ("Gold", Some "GC=F");
    ("Silver", Some "SI=F");
    ("Copper", Some "HG=F");
    ("Aluminum", Some "ALI=F");
    ("Corn", Some "ZC=F");
    ("Wheat", Some "ZW=F");
    ("Soybeans", Some "ZS=F");
    ("Coffee", Some "KC=F");
    ("Cocoa", Some "CC=F");
    ("Live Cattle (Beef)", Some "LE=F");
    ("Ethylene (proxy)", Some "ETHUSD=X") ].

Definition currencies : dict (option string) :=
  [ ("GBP/USD", Some "GBPUSD=X");
    ("EUR/USD", Some "EURUSD=X");
    ("USD/BRL", Some "USDBRL=X");
    ("USD/CNY", Some "USDCNY=X");
    ("USD/JPY", Some "USDJPY=X");
    ("USD/NOK", Some "USDNOK=X");
    ("USD/CAD", Some "USDCAD=X");
    ("USD/AUD", Some "AUDUSD=X");
    ("CHF/USD", Some "CHFUSD=X") ].

(** The source file spells the pound sign with the two characters below,
    in the catalog and in the tag test of [compliance_summary_table] alike;
    the euro sign is spelt in the same manner. *)
Definition pound : string := "¬£".
Definition euro : string := "‚Ç¨".

Record MarketMeta : Type := mkMarket {
  ticker : option string;
  unit_label : string
}.

Definition compliance_markets : dict MarketMeta :=
  [ ("EU ETS (EUA)", mkMarket (Some "C02.F") (euro ++ "/t")%string);
    ("UK ETS", mkMarket None (pound ++ "/t")%string);
    ("California (CARB)", mkMarket None "US$/t");
    ("RGGI", mkMarket None "US$/t");
    ("New Zealand (NZ ETS)", mkMarket None "NZ$/t");
    ("South Korea (K-ETS)", mkMarket None "KRW/t");
    ("China National ETS", mkMarket None "RMB/t");
    ("Core Carbon Principles (CCP)", mkMarket None "US$/t");
    ("CORSIA (Phase 1)", mkMarket None "US$/t");
    ("CBL Global (GEO)", mkMarket (Some "GEO=F") "US$/t");
    ("CBL Nature-Based (NGO)", mkMarket (Some "NGO=F") "US$/t");
    ("ICE Nature-Based", mkMarket None "US$/t");
    ("California Air Resources Board (ARB) - Allowance", mkMarket None "US$/t");
    ("Australia ACCU", mkMarket None "A$/t") ].

(* ================================================================== *)
(** ** Source fetcher *)

Section Fetch.

(** [yf.download(ticker, period=f"{days}d", interval="1d")] at the time of
    the batch, and [df.dropna(how="all")]. *)
Variable download : string -> Z -> yf_result.
Variable dropna : DataFrame -> DataFrame.

(** The body of the loop of [fetch_yfinance]: [results] before and after
    one catalog entry. *)
Definition fetch_yfinance_step (period_days : Z)
    (results : dict (option DataFrame)) (item : string * option string)
  : dict (option DataFrame) :=
  let '(name, ticker) := item in
  match ticker with
  | None => results
  | Some ticker =>
      match download ticker period_days with
      | yf_returns None => results
      | yf_returns (Some df) =>
          if empty df then results
          else dict_set results name (Some (dropna df))
      | yf_raises _ => dict_set results name None
      end
  end.

Definition fetch_yfinance (tickers : dict (option string)) (period_days : Z)
  : dict (option DataFrame) :=
  fold_left (fetch_yfinance_step period_days) tickers [].

(** Whether [fetch_yfinance] stores a value for a catalog entry: the
    condition under which the loop body reaches an assignment to
    [results[name]]. *)
Definition recorded (period_days : Z) (item : string * option string) : bool :=
  match snd item with
  | None => false
  | Some ticker =>
      match download ticker period_days with
      | yf_returns None => false
      | yf_returns (Some df) => negb (empty df)
      | yf_raises _ => true
      end
  end.

Definition fetch_compliance_placeholder (market_key : string) : ComplianceMeta :=
  {| price := None;
     history := None;
     unit_ := None;
     source_note := Some "placeholder - wire an API" |}.

(** [str(e)] for an exception of the model. *)
Definition exn_message (e : exn) : string :=
  match e with
  | IndexError => "single positional indexer is out-of-bounds"
  | ZeroDivisionError => "float division by zero"
  | ValueError => "Each row in 'cellText' must have the same number of columns"
  | AttributeError => "'NoneType' object has no attribute 'finalize'"
  end.

(** [if tick:] *)
Definition truthy (tick : option string) : bool :=
  match tick with
  | None => false
  | Some "" => false
  | Some _ => true
  end.

(** The body of the loop of [fetch_all_data] over [compliance_markets]. *)
Definition fetch_all_data_step (days : Z)
    (compliance_data : dict ComplianceMeta) (item : string * MarketMeta)
  : dict ComplianceMeta :=
  let '(name, meta) := item in
  let failed (note : string) :=
    {| price := None; history := None;
       unit_ := Some (unit_label meta); source_note := Some note |} in
  match ticker meta with
  | Some tick =>
      if truthy (Some tick) then
        match download tick days with
        | yf_returns None =>
            dict_set compliance_data name
              (failed ("Ticker " ++ tick ++ " returned empty")%string)
        | yf_returns (Some df) =>
            if empty df then
              dict_set compliance_data name
                (failed ("Ticker " ++ tick ++ " returned empty")%string)
            else
              match iloc (Close df) (-1) with
              | Ok last_price =>
                  dict_set compliance_data name
                    {| price := Some last_price; history := Some df;
                       unit_ := Some (unit_label meta);
                       source_note := Some ("Ticker " ++ tick)%string |}
              | Raise e =>
                  dict_set compliance_data name
                    (failed ("Ticker error: " ++ exn_message e)%string)
              end
        | yf_raises e =>
            dict_set compliance_data name (failed ("Ticker error: " ++ e)%string)
        end
      else
        let stub := fetch_compliance_placeholder name in
        dict_set compliance_data name
          {| price := price stub; history := history stub;
             unit_ := Some (unit_label meta);
             source_note := source_note stub |}
  | None =>
      let stub := fetch_compliance_placeholder name in
      dict_set compliance_data name
        {| price := price stub; history := history stub;
           unit_ := Some (unit_label meta);
           source_note := source_note stub |}
  end.

Definition fetch_all_data (days : Z)
  : dict (option DataFrame) * dict (option DataFrame) * dict ComplianceMeta :=
  let commod_data := fetch_yfinance commodities days in
  let fx_data := fetch_yfinance currencies days in
  let compliance_data :=
    fold_left (fetch_all_data_step days) compliance_markets [] in
  (commod_data, fx_data, compliance_data).

End Fetch.

(* ================================================================== *)
(** ** Summary builder *)

Definition blank_row (name : string) : SummaryRow :=
  {| Asset := name; Last_Price := None; Change_pct := None; Volume := None |}.

(** The body of the loop of [summary_from_yf_dict]: the row appended for
    one entry of the fetched mapping. *)
Definition summary_row (name : string) (df : option DataFrame)
  : result SummaryRow :=
  match df with
  | None => Ok (blank_row name)
  | Some df =>
      if empty df then Ok (blank_row name)
      else
        last <- iloc (Close df) (-1) ;;
        prev <- (if (1 <? len df)%Z then iloc (Close df) (-2) else Ok last) ;;
        pct <- (if negb (Qeq_bool prev 0)
                then q <- div (last - prev) prev ;; Ok (q * 100)%Q
                else Ok 0%Q) ;;
        vol <- (if has_volume df
                then v <- iloc (Volume_col df) (-1) ;; Ok (Some v)
                else Ok None) ;;
        Ok {| Asset := name;
              Last_Price := Some last;
              Change_pct := Some (round pct 2);
              Volume := vol |}
  end.

Fixpoint summary_from_yf_dict (d : dict (option DataFrame))
  : result (list SummaryRow) :=
  match d with
  | [] => Ok []
  | (name, df) :: rest =>
      row <- summary_row name df ;;
      rows <- summary_from_yf_dict rest ;;
      Ok (row :: rows)
  end.

(* ================================================================== *)
(** ** Currency conversion engine *)

Section Conversion.

(** The module-level [fx_data] (the FX mapping returned by [fetch_all_data]).
    The body of [compliance_summary_table] reads this global and not its
    parameter [fx_df_for_conv]; both call sites pass [fx_data] for it. *)
Variable fx_data : dict (option DataFrame).

(** The two branches that have a pair wired: the value of [converted] and
    of [conv_note] after the branch. *)
Definition convert_using (fx_pair : string) (price : Q)
  : result (option Q * string) :=
  match dict_get fx_data fx_pair with
  | Some (Some df) =>
      fx_last <- iloc (Close df) (-1) ;;
      Ok (Some (price * fx_last)%Q, ("converted using " ++ fx_pair)%string)
  | _ => Ok (None, "")
  end.

(** The body of the loop of [compliance_summary_table]: the row appended
    for one record. *)
Definition compliance_row (fx_df_for_conv : option (dict (option DataFrame)))
    (to_usd : bool) (name : string) (meta : ComplianceMeta)
  : result ComplianceRow :=
  let unit := get_default "" (unit_ meta) in
  let source := get_default "" (source_note meta) in
  let row (usd : option Q) (note : string) :=
    {| Market := name; Unit := unit; Last_Price_local := price meta;
       Last_Price_USD := usd; Source := source; Note := note |} in
  match to_usd, price meta with
  | true, Some price =>
      branch <-
        (if str_in "NZ$" unit then
           Ok (None, "(conversion not available - add USD/NZD pair)")
         else if str_in "A$" unit || str_in "A$" name then
           Ok (None, "(conversion not available - add USD/AUD pair)")
         else if str_in "KRW" unit then
           Ok (None, "(conversion not available - add USDKRW pair)")
         else if str_in "RMB" unit || str_in "CNY" unit then
           convert_using "USD/CNY" price
         else if str_in pound unit then
           convert_using "GBP/USD" price
         else Ok (None, "")) ;;
      match branch with
      | (Some converted, conv_note) => Ok (row (Some (round converted 4)) conv_note)
      | (None, conv_note) => Ok (row None conv_note)
      end
  | _, _ => Ok (row None "")
  end.

Fixpoint compliance_summary_table (compliance_dict : dict ComplianceMeta)
    (fx_df_for_conv : option (dict (option DataFrame))) (to_usd : bool)
  : result (list ComplianceRow) :=
  match compliance_dict with
  | [] => Ok []
  | (name, meta) :: rest =>
      row <- compliance_row fx_df_for_conv to_usd name meta ;;
      rows <- compliance_summary_table rest fx_df_for_conv to_usd ;;
      Ok (row :: rows)
  end.

End Conversion.

(** A conversion note that says which pair was used. *)
Definition note_reports_conversion (note : string) : bool :=
  String.prefix "converted using " note.

(* ================================================================== *)
(** ** Snapshot report generator *)

(** A cell of a rendered table, after [fillna("")]. *)
Inductive cell : Type :=
| CellBlank
| CellStr (s : string)
| CellFloat (q : Q)
| CellInt (z : Z).

(** The pages [matplotlib] draws: what each page shows.  A text figure and
    a line chart are drawn and saved whatever their content; a table is
    drawn by [ax_table] below, which can raise. *)
Inductive ReportPage : Type :=
| TitlePage (title : string) (now : string) (days : Z)
| TablePage (title : string) (colLabels : list string) (cellText : list (list cell))
| ChartPage (title : string) (df : DataFrame)
| NotesPage (heading : string) (notes : list string).

Definition fill_float (o : option Q) : cell :=
  match o with Some q => CellFloat q | None => CellBlank end.

Definition fill_int (o : option Z) : cell :=
  match o with Some z => CellInt z | None => CellBlank end.

(** [table.fillna("").values] and [table.columns] for the two kinds of
    table; a frame built from no rows has no columns. *)
Definition summary_values (table : list SummaryRow) : list (list cell) :=
  map (fun r => [CellStr (Asset r); fill_float (Last_Price r);
                 fill_float (Change_pct r); fill_int (Volume r)]) table.

Definition summary_columns (table : list SummaryRow) : list string :=
  match table with
  | [] => []
  | _ :: _ => ["Asset"; "Last Price"; "Change %"; "Volume"]
  end.

Definition compliance_values (table : list ComplianceRow) : list (list cell) :=
  map (fun r => [CellStr (Market r); CellStr (Unit r);
                 fill_float (Last_Price_local r); fill_float (Last_Price_USD r);
                 CellStr (Source r); CellStr (Note r)]) table.

Definition compliance_columns (table : list ComplianceRow) : list string :=
  match table with
  | [] => []
  | _ :: _ => ["Market"; "Unit"; "Last Price (local)"; "Last Price (USD)";
               "Source"; "Note"]
  end.

(** [ax.table(cellText=..., colLabels=..., loc='center', cellLoc='center')]
    under the title set on the axes: matplotlib counts the columns on the
    first row of [cellText], so a table without rows raises [IndexError];
    a row of another length, or labels that do not match the columns,
    raise [ValueError]. *)
Definition ax_table (title : string) (colLabels : list string)
    (cellText : list (list cell)) : result ReportPage :=
  match cellText with
  | [] => Raise IndexError
  | first :: _ =>
      let cols := List.length first in
      if negb (forallb (fun row => Nat.eqb (List.length row) cols) cellText)
      then Raise ValueError
      else if negb (Nat.eqb (List.length colLabels) cols)
      then Raise ValueError
      else Ok (TablePage title colLabels cellText)
  end.

(** [pdf.savefig(fig)]: the page goes last. *)
Definition savefig (pdf : list ReportPage) (page : ReportPage) : list ReportPage :=
  pdf ++ [page].

(** The loop of [add_series_page], from the entries still to visit, the
    pages saved so far and the counter [plotted]. *)
Fixpoint add_series_loop (title : string) (max_plots : nat)
    (items : dict (option DataFrame)) (pdf : list ReportPage) (plotted : nat)
  : list ReportPage * nat :=
  match items with
  | [] => (pdf, plotted)
  | (name, df) :: rest =>
      match df with
      | None => add_series_loop title max_plots rest pdf plotted
      | Some df =>
          if empty df then add_series_loop title max_plots rest pdf plotted
          else
            let pdf := savefig pdf (ChartPage (title ++ " ‚Äî " ++ name) df) in
            let plotted := S plotted in
            if (max_plots <=? plotted)%nat then (pdf, plotted)
            else add_series_loop title max_plots rest pdf plotted
      end
  end.

Definition add_series_page (pdf : list ReportPage) (title : string)
    (series_dict : dict (option DataFrame)) (max_plots : nat)
  : list ReportPage * nat :=
  add_series_loop title max_plots series_dict pdf 0.

(** [hist_dict]: the histories that are non-empty frames. *)
Definition hist_dict_step (hist_dict : dict (option DataFrame))
    (item : string * ComplianceMeta) : dict (option DataFrame) :=
  let '(name, meta) := item in
  match history meta with
  | Some hist => if negb (empty hist) then dict_set hist_dict name (Some hist)
                 else hist_dict
  | None => hist_dict
  end.

Definition notes : list string :=
  [ "Data sources: Yahoo Finance (where available), placeholders for markets that require dedicated APIs or scraping.";
    "Markets with 'None' prices are placeholders. Replace fetch_compliance_placeholder() with real API/scrapes.";
    "Currency conversions are simplistic and require robust FX pairs for precise conversions.";
    "This PDF was generated by the Streamlit dashboard (v4)." ].

Section Snapshot.

(** [PdfPages.close()] on an object that is already closed: a no-op in the
    releases that test for it, [AttributeError] in those that finalize the
    file once more. *)
Variable close_closed : result unit.

(** [now] is [datetime.utcnow()] formatted, read from the clock by the
    source and a parameter here.  The source closes [pdf] at the end of the
    [with] block, and leaving the block closes it again. *)
Definition generate_pdf_snapshot (now : string)
    (commod_table fx_table : list SummaryRow) (comp_table : list ComplianceRow)
    (commod_data fx_data : dict (option DataFrame))
    (compliance_data : dict ComplianceMeta) (days : Z)
  : result (list ReportPage) :=
  let pdf := [] in
  let pdf := savefig pdf
    (TitlePage "Commodities, FX & Compliance Carbon - Daily Snapshot" now days) in
  tbl <- ax_table "Commodities Summary"
           (summary_columns commod_table) (summary_values commod_table) ;;
  let pdf := savefig pdf tbl in
  tbl2 <- ax_table "FX Summary"
            (summary_columns fx_table) (summary_values fx_table) ;;
  let pdf := savefig pdf tbl2 in
  tbl3 <- ax_table "Compliance Carbon Markets Summary"
            (compliance_columns comp_table) (compliance_values comp_table) ;;
  let pdf := savefig pdf tbl3 in
  let pdf := fst (add_series_page pdf "Commodities Trend" commod_data 6) in
  let pdf := fst (add_series_page pdf "FX Trend" fx_data 6) in
  let hist_dict := fold_left hist_dict_step compliance_data [] in
  let pdf :=
    match hist_dict with
    | [] => pdf
    | _ :: _ => fst (add_series_page pdf "Compliance Market Trends" hist_dict 6)
    end in
  let pdf := savefig pdf
    (NotesPage "Notes & Data Sources" (map (fun n => "- " ++ n)%string notes)) in
  closed <- close_closed ;;
  Ok pdf.

End Snapshot.

(* ================================================================== *)
(** ** The change formula as the specification words it *)

(** "[(last - prev) / prev * 100] using the two most recent closes, where
    [prev] is the second-most-recent close if it exists else equals [last],
    rounded to 2 decimal places": the formula of the specification, with no
    test on [prev]. *)
Definition spec_change_pct (closes : list Q) : result Q :=
  last <- iloc closes (-1) ;;
  prev <- (if (2 <=? Z.of_nat (List.length closes))%Z
           then iloc closes (-2) else Ok last) ;;
  q <- div (last - prev) prev ;;
  Ok (round (q * 100) 2).

(* ================================================================== *)
(** ** Sample inputs *)

Definition frame_of (closes : list (Q * Z)) : DataFrame :=
  {| rows := map (fun cv => mkBar (fst cv) (snd cv)) closes;
     has_volume := true |}.

(** A frame with no rows, as [yf.download] returns it for a symbol it does
    not know. *)
Definition no_rows : DataFrame := {| rows := []; has_volume := true |}.

(** An upstream that knows every symbol but ["GC=F"]. *)
Definition download_without_gold (ticker : string) (days : Z) : yf_result :=
  if String.eqb ticker "GC=F" then yf_returns (Some no_rows)
  else yf_returns (Some (frame_of [(100, 10%Z); (110, 12%Z)])).

(** [dropna(how="all")] on frames that have no all-NaN row. *)
Definition keep_rows (df : DataFrame) : DataFrame := df.

(** The record [{price: 80, unit: pound/t}]. *)
Definition uk_ets_80 : ComplianceMeta :=
  {| price := Some 80%Q; history := None;
     unit_ := Some (pound ++ "/t")%string; source_note := None |}.

(** A record priced in renminbi. *)
Definition china_ets_60 : ComplianceMeta :=
  {| price := Some 60%Q; history := None;
     unit_ := Some "RMB/t"; source_note := None |}.

(** A dollar-priced record. *)
Definition carb_30 : ComplianceMeta :=
  {| price := Some 30%Q; history := None;
     unit_ := Some "US$/t"; source_note := None |}.

(** An FX mapping that holds one pair, with one close. *)
Definition fx_one_pair (pair : string) (rate : Q) : dict (option DataFrame) :=
  [(pair, Some (frame_of [(rate, 0%Z)]))].

(** A pound-priced and a dollar-priced record whose names hold "A$". *)
Definition uk_named_aud : string := "UK ETS (A$ cross-listed)".
Definition carb_named_aud : string := "California (A$ cross-listed)".

(* ================================================================== *)
(** ** Mini price trends on the dashboard *)

(** A figure drawn into one of the three columns [cols = st.columns(3)]. *)
Record MiniChart : Type := mkMiniChart {
  chart_col : nat;
  chart_title : string;
  chart_frame : DataFrame;
  chart_ylabel : option string
}.

(** [plot_series_in_col(cols[col], name, df, ylabel)]: the y label is set
    when [ylabel] is truthy. *)
Definition plot_series_in_col (col : nat) (name : string) (df : DataFrame)
    (ylabel : option string) : MiniChart :=
  {| chart_col := col;
     chart_title := name;
     chart_frame := df;
     chart_ylabel := match ylabel with
                     | Some "" => None
                     | other => other
                     end |}.

(** The loops over [commod_data] and [fx_data], from the entries still to
    visit and the counter [i]; [cap] is the bound of the [break]. *)
Fixpoint plot_fetched (cap : nat) (ylabel : option string)
    (items : dict (option DataFrame)) (i : nat) : list MiniChart :=
  match items with
  | [] => []
  | (name, df) :: rest =>
      match df with
      | None => plot_fetched cap ylabel rest i
      | Some df =>
          if empty df then plot_fetched cap ylabel rest i
          else
            let chart := plot_series_in_col (i mod 3) name df ylabel in
            let i := S i in
            if (cap <=? i)%nat then [chart]
            else chart :: plot_fetched cap ylabel rest i
      end
  end.

(** The loop over [compliance_data]: a history is skipped when it is
    [None]; an empty frame is not. *)
Fixpoint plot_histories (cap : nat) (items : dict ComplianceMeta) (i : nat)
  : list MiniChart :=
  match items with
  | [] => []
  | (name, meta) :: rest =>
      match history meta with
      | None => plot_histories cap rest i
      | Some hist =>
          let chart := plot_series_in_col (i mod 3) name hist
                         (Some (get_default "" (unit_ meta))) in
          let i := S i in
          if (cap <=? i)%nat then [chart]
          else chart :: plot_histories cap rest i
      end
  end.

(** The figures of the section "Mini Price Trends", in drawing order. *)
Definition mini_price_trends (commod_data fx_data : dict (option DataFrame))
    (compliance_data : dict ComplianceMeta) : list MiniChart :=
  plot_fetched 9 None commod_data 0 ++
  plot_fetched 6 (Some "Rate") fx_data 0 ++
  plot_histories 6 compliance_data 0.

(* ================================================================== *)
(** ** Series that have data *)

(** The entries of a fetched mapping whose frame is there and has rows. *)
Definition present (data : dict (option DataFrame)) : list (string * DataFrame) :=
  flat_map (fun item => match snd item with
                        | Some df => if empty df then [] else [(fst item, df)]
                        | None => []
                        end) data.

(** The compliance records that have a history, and those whose history
    has rows. *)
Definition with_history (compliance_data : dict ComplianceMeta)
  : list (string * ComplianceMeta * DataFrame) :=
  flat_map (fun item => match history (snd item) with
                        | Some hist => [(fst item, snd item, hist)]
                        | None => []
                        end) compliance_data.

Definition nonempty_histories (compliance_data : dict ComplianceMeta)
  : list (string * DataFrame) :=
  flat_map (fun item => match history (snd item) with
                        | Some hist => if empty hist then [] else [(fst item, hist)]
                        | None => []
                        end) compliance_data.

(** The chart pages of the first six of [entries]. *)
Definition trend_charts (title : string) (entries : list (string * DataFrame))
  : list ReportPage :=
  map (fun e => ChartPage (title ++ " ‚Äî " ++ fst e) (snd e)) (firstn 6 entries).

(** The [k]-th entry paired with [start + k], up to [count] entries. *)
Definition numbered (A : Type) (start count : nat) (l : list A) : list (nat * A) :=
  combine (seq start count) l.

(** How a record of [compliance_data] relates to its catalog entry. *)
Definition record_of_market (item : string * MarketMeta)
    (entry : string * ComplianceMeta) : Prop :=
  fst entry = fst item /\
  unit_ (snd entry) = Some (unit_label (snd item)) /\
  (price (snd entry) = None <-> history (snd entry) = None) /\
  (forall hist, history (snd entry) = Some hist -> empty hist = false) /\
  (exists note, source_note (snd entry) = Some note /\ note <> "") /\
  (truthy (ticker (snd item)) = false ->
   price (snd entry) = None /\
   source_note (snd entry) = Some "placeholder - wire an API").

(** A market whose price, if it gets one, is not touched by the
    conversion: it has no ticker, or its unit has none of the currency
    tags and its name has no "A$". *)
Definition never_converted (item : string * MarketMeta) : bool :=
  negb (truthy (ticker (snd item))) ||
  negb (str_in "NZ$" (unit_label (snd item)) ||
        str_in "A$" (unit_label (snd item)) ||
        str_in "A$" (fst item) ||
        str_in "KRW" (unit_label (snd item)) ||
        str_in "RMB" (unit_label (snd item)) ||
        str_in "CNY" (unit_label (snd item)) ||
        str_in pound (unit_label (snd item))).

(** A record priced in New Zealand dollars. *)
Definition nz_ets_50 : ComplianceMeta :=
  {| price := Some 50%Q; history := None;
     unit_ := Some "NZ$/t"; source_note := None |}.

(** An FX mapping whose GBP/USD frame lost all its rows. *)
Definition fx_gbp_no_rows : dict (option DataFrame) :=
  [("GBP/USD", Some no_rows)].

(** A commodities mapping with two frames that have rows between entries
    that have none, and compliance records with and without a history. *)
Definition sample_commod_data : dict (option DataFrame) :=
  [ ("Crude Oil (WTI)", None);
    ("Brent Oil", Some (frame_of [(80, 5%Z)]));
    ("Natural Gas (Henry Hub, US)", Some no_rows);
    ("Gold", Some (frame_of [(1900, 900%Z); (1950, 1000%Z)])) ].

Definition sample_compliance_data : dict ComplianceMeta :=
  [ ("EU ETS (EUA)",
     {| price := Some 70%Q; history := Some (frame_of [(70, 1%Z)]);
        unit_ := Some (euro ++ "/t")%string; source_note := Some "Ticker C02.F" |});
    ("UK ETS", uk_ets_80) ].

(** An upstream that returns a frame without rows for every symbol. *)
Definition download_nothing (ticker : string) (days : Z) : yf_result :=
  yf_returns (Some no_rows).

(** Tables with one blank row each, and a compliance table with one row. *)
Definition one_blank_row (name : string) : list SummaryRow := [blank_row name].

Definition one_compliance_row : list ComplianceRow :=
  [ {| Market := "UK ETS"; Unit := (pound ++ "/t")%string;
       Last_Price_local := Some 80%Q; Last_Price_USD := None;
       Source := ""; Note := "" |} ].

(* ================================================================== *)
(** ** Aggregation cache *)

(** The time to live of the decorator [@st.cache_data(ttl=1800)], in
    seconds. *)
Definition ttl : Z := 1800.

(** Modelled from the spec: an entry of the memoization of
    [fetch_all_data].  The source has only the decorator on a function of
    the one argument [days]; the cache itself is in the streamlit runtime.
    The specification (sections 3 and 4.3) gives its behaviour: an entry
    per lookback window, holding the value and the time it expires; created
    on the first fetch for the window, reused until [expires_at], and, once
    expired, recomputed by a fresh fetch-all that replaces the entry. *)
Record CacheEntry (V : Type) : Type := mkCacheEntry {
  cached_value : V;
  expires_at : Z
}.

(** Modelled from the spec: the cache, keyed by the lookback window alone,
    with the log of the upstream fetches made so far as (time, window).
    Time is an explicit clock in seconds. *)
Record Cache (V : Type) : Type := mkCache {
  entry_of : Z -> option (CacheEntry V);
  upstream_log : list (Z * Z)
}.

(** Modelled from the spec: the cache of a new session. *)
Definition empty_cache (V : Type) : Cache V :=
  {| entry_of := fun _ => None; upstream_log := [] |}.

Section CachedCall.
Variable V : Type.

(** [fetch now days]: what a fetch-all for the window [days] returns when
    it runs at time [now]. *)
Variable fetch : Z -> Z -> V.

(** Modelled from the spec: a fetch-all at time [now] that misses: the
    upstream is fetched once and the entry of the window is replaced. *)
Definition cache_miss (now days : Z) (cache : Cache V) : V * Cache V :=
  let v := fetch now days in
  (v,
   {| entry_of := fun key => if (key =? days)%Z
                             then Some {| cached_value := v;
                                          expires_at := (now + ttl)%Z |}
                             else entry_of cache key;
      upstream_log := upstream_log cache ++ [(now, days)] |}).

(** Modelled from the spec: a call of the memoized fetch-all at time
    [now]: the entry of the window is reused while it has not expired. *)
Definition cached_call (now days : Z) (cache : Cache V) : V * Cache V :=
  match entry_of cache days with
  | Some entry =>
      if (now <? expires_at entry)%Z then (cached_value entry, cache)
      else cache_miss now days cache
  | None => cache_miss now days cache
  end.

End CachedCall.

(** The memoized [fetch_all_data]: [download_at now] is the upstream as it
    answers at time [now]. *)
Definition fetch_all_data_cached
    (download_at : Z -> string -> Z -> yf_result)
    (dropna : DataFrame -> DataFrame) (now days : Z)
    (cache : Cache (dict (option DataFrame) * dict (option DataFrame) *
                    dict ComplianceMeta)) :=
  cached_call (fun now days => fetch_all_data (download_at now) dropna days)
              now days cache.

(** An upstream that has no data at all before time 1000 and everything
    but gold afterwards. *)
Definition download_late (now : Z) : string -> Z -> yf_result :=
  if (now <? 1000)%Z then download_nothing else download_without_gold.

(* ================================================================== *)
(** * Properties *)

(** ** Exceptions and positional access *)

Lemma bind_Ok_inv (A B : Type) (m : result A) (k : A -> result B) (b : B) :
  bind m k = Ok b -> exists a, m = Ok a /\ k a = Ok b.
Proof.
  destruct m as [a | e]; simpl; intros H.
  - exists a. split; [reflexivity | exact H].
  - discriminate H.
Qed.

Lemma iloc_last (A : Type) (l : list A) (x : A) :
  iloc (l ++ [x]) (-1) = Ok x.
Proof.
  unfold iloc. rewrite length_app. simpl List.length.
  replace (-1 <? 0)%Z with true by reflexivity.
  replace (Z.of_nat (List.length l + 1) + -1)%Z
    with (Z.of_nat (List.length l)) by lia.
  replace ((0 <=? Z.of_nat (List.length l)) &&
           (Z.of_nat (List.length l) <? Z.of_nat (List.length l + 1)))%Z
    with true by (symmetry; apply andb_true_iff; split;
                  [apply Z.leb_le | apply Z.ltb_lt]; lia).
  rewrite Nat2Z.id, nth_error_app2 by lia.
  rewrite Nat.sub_diag. reflexivity.
Qed.

Lemma iloc_before_last (A : Type) (l : list A) (x y : A) :
  iloc (l ++ [x; y]) (-2) = Ok x.
Proof.
  unfold iloc. rewrite length_app. simpl List.length.
  replace (-2 <? 0)%Z with true by reflexivity.
  replace (Z.of_nat (List.length l + 2) + -2)%Z
    with (Z.of_nat (List.length l)) by lia.
  replace ((0 <=? Z.of_nat (List.length l)) &&
           (Z.of_nat (List.length l) <? Z.of_nat (List.length l + 2)))%Z
    with true by (symmetry; apply andb_true_iff; split;
                  [apply Z.leb_le | apply Z.ltb_lt]; lia).
  rewrite Nat2Z.id, nth_error_app2 by lia.
  rewrite Nat.sub_diag. reflexivity.
Qed.

(** A non-empty list is an initial segment followed by its last element. *)
Lemma nonempty_snoc (A : Type) (l : list A) :
  l <> [] -> exists init x, l = init ++ [x].
Proof.
  intros H. destruct (exists_last H) as [init [x E]].
  exists init, x. exact E.
Qed.

(** ** Dictionaries *)

Section DictFacts.
Variable V : Type.

Lemma keys_dict_set_new (d : dict V) (k : string) (v : V) :
  ~ In k (keys d) -> keys (dict_set d k v) = keys d ++ [k].
Proof.
  induction d as [| [k' v'] rest IH]; simpl; intros Hnew.
  - reflexivity.
  - destruct (String.eqb_spec k' k) as [E | NE].
    + exfalso. apply Hnew. left. exact E.
    + simpl. f_equal. apply IH. intros Hin. apply Hnew. right. exact Hin.
Qed.

Lemma dict_get_set_same (d : dict V) (k : string) (v : V) :
  dict_get (dict_set d k v) k = Some v.
Proof.
  induction d as [| [k' v'] rest IH]; simpl.
  - rewrite String.eqb_refl. reflexivity.
  - destruct (String.eqb_spec k' k) as [E | NE]; simpl.
    + subst k'. rewrite String.eqb_refl. reflexivity.
    + destruct (String.eqb_spec k' k) as [E' | _]; [contradiction | exact IH].
Qed.

Lemma dict_get_set_other (d : dict V) (k k' : string) (v : V) :
  k <> k' -> dict_get (dict_set d k v) k' = dict_get d k'.
Proof.
  intros Hne. induction d as [| [k0 v0] rest IH]; simpl.
  - destruct (String.eqb_spec k k'); [contradiction | reflexivity].
  - destruct (String.eqb_spec k0 k) as [E | NE]; simpl.
    + subst k0. destruct (String.eqb_spec k k'); [contradiction | reflexivity].
    + destruct (String.eqb_spec k0 k'); [reflexivity | exact IH].
Qed.

Lemma dict_get_not_key (d : dict V) (k : string) :
  ~ In k (keys d) -> dict_get d k = None.
Proof.
  induction d as [| [k' v'] rest IH]; simpl; intros Hnew.
  - reflexivity.
  - destruct (String.eqb_spec k' k) as [E | NE].
    + exfalso. apply Hnew. left. exact E.
    + apply IH. intros Hin. apply Hnew. right. exact Hin.
Qed.

End DictFacts.

(** ** Source fetcher *)

Section FetchFacts.
Variable download : string -> Z -> yf_result.
Variable dropna : DataFrame -> DataFrame.

Lemma fetch_step_keys (days : Z) (acc : dict (option DataFrame))
    (item : string * option string) :
  ~ In (fst item) (keys acc) ->
  keys (fetch_yfinance_step download dropna days acc item) =
  keys acc ++ (if recorded download days item then [fst item] else []).
Proof.
  destruct item as [name [t |]]; unfold fetch_yfinance_step, recorded; simpl; intros Hnew.
  - destruct (download t days) as [msg | [df |]].
    + apply keys_dict_set_new. exact Hnew.
    + destruct (empty df); simpl.
      * symmetry. apply app_nil_r.
      * apply keys_dict_set_new. exact Hnew.
    + symmetry. apply app_nil_r.
  - symmetry. apply app_nil_r.
Qed.

Lemma fetch_fold_keys (days : Z) (tickers : dict (option string)) :
  forall acc : dict (option DataFrame),
    NoDup (keys tickers) ->
    (forall k, In k (keys tickers) -> ~ In k (keys acc)) ->
    keys (fold_left (fetch_yfinance_step download dropna days) tickers acc) =
    keys acc ++ keys (filter (recorded download days) tickers).
Proof.
  induction tickers as [| item rest IH]; simpl; intros acc Hnd Hfresh.
  - symmetry. apply app_nil_r.
  - inversion Hnd as [| k ks Hk Hks]; subst.
    rewrite IH.
    + rewrite fetch_step_keys by (apply Hfresh; left; reflexivity).
      destruct (recorded download days item); simpl.
      * rewrite <- app_assoc. reflexivity.
      * rewrite app_nil_r. reflexivity.
    + exact Hks.
    + intros k Hin.
      rewrite fetch_step_keys by (apply Hfresh; left; reflexivity).
      intros Hin'. apply in_app_or in Hin'. destruct Hin' as [Hacc | Hitem].
      * apply (Hfresh k); [right; exact Hin | exact Hacc].
      * destruct (recorded download days item); simpl in Hitem.
        -- destruct Hitem as [E | []]. subst k. apply Hk. exact Hin.
        -- destruct Hitem.
Qed.

(** X14: the keys of the mapping [fetch_yfinance] returns are the
    instruments it recorded (the download raised or returned rows), in
    catalog order; an instrument without a ticker is never a key. *)
Lemma fetch_yfinance_keys (tickers : dict (option string)) (days : Z) :
  NoDup (keys tickers) ->
  keys (fetch_yfinance download dropna tickers days) =
  keys (filter (recorded download days) tickers).
Proof.
  intros Hnd. unfold fetch_yfinance.
  apply (fetch_fold_keys days tickers []); [exact Hnd |].
  intros k _ [].
Qed.

Lemma fetch_fold_get_other (days : Z) (name : string)
    (tickers : dict (option string)) :
  forall acc : dict (option DataFrame),
    ~ In name (keys tickers) ->
    dict_get (fold_left (fetch_yfinance_step download dropna days) tickers acc) name = dict_get acc name.
Proof.
  induction tickers as [| [k t] rest IH]; simpl; intros acc Hnot.
  - reflexivity.
  - rewrite IH by (intros Hin; apply Hnot; right; exact Hin).
    assert (Hne : k <> name) by (intros E; apply Hnot; left; exact E).
    unfold fetch_yfinance_step.
    destruct t as [t |]; [| reflexivity].
    destruct (download t days) as [msg | [df |]].
    + apply dict_get_set_other. exact Hne.
    + destruct (empty df); [reflexivity |].
      apply dict_get_set_other. exact Hne.
    + reflexivity.
Qed.

(** A download that raises does not stop the batch: the instrument is
    recorded with [None]. *)
Lemma fetch_yfinance_records_raise (tickers : dict (option string)) (days : Z)
    (name ticker msg : string) :
  NoDup (keys tickers) ->
  In (name, Some ticker) tickers ->
  download ticker days = yf_raises msg ->
  dict_get (fetch_yfinance download dropna tickers days) name = Some None.
Proof.
  unfold fetch_yfinance. generalize (@nil (string * option DataFrame)).
  induction tickers as [| [k t] rest IH]; simpl; intros acc Hnd Hin Hraise.
  - destruct Hin.
  - inversion Hnd as [| k' ks Hk Hks]; subst.
    destruct Hin as [E | Hin].
    + injection E as -> ->.
      rewrite fetch_fold_get_other by exact Hk.
      unfold fetch_yfinance_step. rewrite Hraise.
      apply dict_get_set_same.
    + apply IH; assumption.
Qed.

(** Every compliance market gets a record, with or without a ticker. *)
Lemma fetch_all_data_step_keys (days : Z) (acc : dict ComplianceMeta)
    (item : string * MarketMeta) :
  ~ In (fst item) (keys acc) ->
  keys (fetch_all_data_step download days acc item) = keys acc ++ [fst item].
Proof.
  destruct item as [name meta]; unfold fetch_all_data_step; cbn [fst]; intros Hnew.
  destruct (ticker meta) as [tick |].
  - destruct (truthy (Some tick)).
    + destruct (download tick days) as [msg | [df |]].
      * apply keys_dict_set_new. exact Hnew.
      * destruct (empty df).
        -- apply keys_dict_set_new. exact Hnew.
        -- destruct (iloc (Close df) (-1)); apply keys_dict_set_new; exact Hnew.
      * apply keys_dict_set_new. exact Hnew.
    + apply keys_dict_set_new. exact Hnew.
  - apply keys_dict_set_new. exact Hnew.
Qed.

Lemma fetch_all_data_fold_keys (days : Z) (markets : dict MarketMeta) :
  forall acc : dict ComplianceMeta,
    NoDup (keys markets) ->
    (forall k, In k (keys markets) -> ~ In k (keys acc)) ->
    keys (fold_left (fetch_all_data_step download days) markets acc) =
    keys acc ++ keys markets.
Proof.
  induction markets as [| item rest IH]; simpl; intros acc Hnd Hfresh.
  - symmetry. apply app_nil_r.
  - inversion Hnd as [| k ks Hk Hks]; subst.
    rewrite IH.
    + rewrite fetch_all_data_step_keys by (apply Hfresh; left; reflexivity).
      rewrite <- app_assoc. reflexivity.
    + exact Hks.
    + intros k Hin.
      rewrite fetch_all_data_step_keys by (apply Hfresh; left; reflexivity).
      intros Hin'. apply in_app_or in Hin'. destruct Hin' as [Hacc | [E | []]].
      * apply (Hfresh k); [right; exact Hin | exact Hacc].
      * subst k. apply Hk. exact Hin.
Qed.

Lemma compliance_markets_NoDup : NoDup (keys compliance_markets).
Proof.
  unfold keys, compliance_markets; simpl.
  repeat (constructor; [simpl; intros H; repeat destruct H as [H | H];
                        try discriminate H; try contradiction |]).
  constructor.
Qed.

Lemma fetch_all_data_compliance_keys (days : Z) :
  keys (snd (fetch_all_data download dropna days)) = keys compliance_markets.
Proof.
  unfold fetch_all_data; cbn [snd].
  rewrite fetch_all_data_fold_keys.
  - reflexivity.
  - exact compliance_markets_NoDup.
  - intros k _ [].
Qed.

End FetchFacts.

(** C2 (defect): an instrument whose download returns an empty frame is
    left out of the mapping [fetch_yfinance] returns, where the claim has
    it recorded with a "no data" value.  With an upstream that has no data
    for ["GC=F"], "Gold" is not a key of the result; the other fifteen
    commodities are recorded in catalog order. *)
Theorem fetch_yfinance_omits_empty_download :
  let results := fetch_yfinance download_without_gold keep_rows commodities 30 in
  dict_in "Gold" commodities = true /\
  dict_in "Gold" results = false /\
  keys results =
    [ "Crude Oil (WTI)"; "Brent Oil"; "Natural Gas (Henry Hub, US)";
      "EU Gas (TTF)"; "LNG (JKM, Asia proxy)";
      "Silver"; "Copper"; "Aluminum"; "Corn"; "Wheat"; "Soybeans";
      "Coffee"; "Cocoa"; "Live Cattle (Beef)"; "Ethylene (proxy)" ].
Proof.
  vm_compute. repeat split.
Qed.

(** ** Summary builder *)

Lemma summary_row_absent (name : string) :
  summary_row name None = Ok (blank_row name).
Proof. reflexivity. Qed.

Lemma summary_row_empty (name : string) (df : DataFrame) :
  empty df = true -> summary_row name (Some df) = Ok (blank_row name).
Proof. intros H. unfold summary_row. rewrite H. reflexivity. Qed.

Lemma empty_snoc (df : DataFrame) (init : list Bar) (b : Bar) :
  rows df = init ++ [b] -> empty df = false.
Proof.
  unfold empty. intros ->. destruct init; reflexivity.
Qed.

(** The close before the last one, as the builder reads it. *)
Lemma prev_close_snoc (init : list Bar) (b : Bar) :
  (if (1 <? Z.of_nat (List.length (init ++ [b])))%Z
   then iloc (map close init ++ [close b]) (-2)
   else Ok (close b)) =
  Ok (match rev init with
      | a :: _ => close a
      | [] => close b
      end).
Proof.
  destruct init as [| a0 init0] using rev_ind.
  - reflexivity.
  - rewrite rev_unit.
    replace (1 <? Z.of_nat (List.length ((init0 ++ [a0]) ++ [b])))%Z with true
      by (symmetry; apply Z.ltb_lt; rewrite !length_app; simpl; lia).
    rewrite map_app, <- app_assoc. apply iloc_before_last.
Qed.

(** Runs [summary_row] on a frame whose rows are [init ++ [b]] up to the
    test on [prev]. *)
Ltac run_summary_row df init b Hrows :=
  unfold summary_row; rewrite (empty_snoc df init b Hrows);
  unfold Close, Volume_col, len; rewrite Hrows, !map_app; cbn [map];
  rewrite !iloc_last; cbn [bind];
  rewrite prev_close_snoc; cbn [bind]; unfold div.

(** C5 (amended): for a non-empty series, [last_price] is the most recent
    close and [change_pct] is [(last - prev) / prev * 100] rounded to two
    decimals when [prev] is not zero, and zero when [prev] is zero;
    [prev] is the second-most-recent close when there is one and [last]
    otherwise.  The builder raises no exception. *)
Theorem summary_row_change_pct (name : string) (df : DataFrame)
    (init : list Bar) (b : Bar) :
  rows df = init ++ [b] ->
  let last := close b in
  let prev := match rev init with
              | a :: _ => close a
              | [] => last
              end in
  summary_row name (Some df) =
  Ok {| Asset := name;
        Last_Price := Some last;
        Change_pct := Some (if Qeq_bool prev 0 then 0%Q
                            else round ((last - prev) / prev * 100) 2);
        Volume := if has_volume df then Some (volume b) else None |}.
Proof.
  intros Hrows last prev.
  run_summary_row df init b Hrows.
  fold last. fold prev.
  destruct (Qeq_bool prev 0); cbn [negb bind];
    destruct (has_volume df); reflexivity.
Qed.

(** The formula holds at the series of the specification: [100, 110]
    gives 10.0, [100] gives 0.0, and [1900, 1950] with volume 1000 gives
    the row [Gold, 1950.0, 2.63, 1000]. *)
Lemma summary_row_change_pct_witness :
  summary_row "two" (Some (frame_of [(100, 10%Z); (110, 12%Z)])) =
    Ok {| Asset := "two"; Last_Price := Some 110%Q;
          Change_pct := Some 10%Q; Volume := Some 12%Z |} /\
  summary_row "one" (Some (frame_of [(100, 10%Z)])) =
    Ok {| Asset := "one"; Last_Price := Some 100%Q;
          Change_pct := Some 0%Q; Volume := Some 10%Z |} /\
  summary_row "Gold" (Some (frame_of [(1900, 900%Z); (1950, 1000%Z)])) =
    Ok {| Asset := "Gold"; Last_Price := Some 1950%Q;
          Change_pct := Some (263 # 100); Volume := Some 1000%Z |}.
Proof.
  split; [| split].
  - exact (summary_row_change_pct "two" (frame_of [(100, 10%Z); (110, 12%Z)])
             [mkBar 100 10] (mkBar 110 12) eq_refl).
  - exact (summary_row_change_pct "one" (frame_of [(100, 10%Z)])
             [] (mkBar 100 10) eq_refl).
  - exact (summary_row_change_pct "Gold"
             (frame_of [(1900, 900%Z); (1950, 1000%Z)])
             [mkBar 1900 900] (mkBar 1950 1000) eq_refl).
Defined.

(** C5 (as stated, refuted): at a series whose second-most-recent close is
    zero the formula of the specification divides by zero, and the builder
    reports a change of zero. *)
Lemma change_pct_formula_undefined_at_zero_prev :
  spec_change_pct (Close (frame_of [(0, 10%Z); (5, 12%Z)])) =
    Raise ZeroDivisionError /\
  summary_row "x" (Some (frame_of [(0, 10%Z); (5, 12%Z)])) =
    Ok {| Asset := "x"; Last_Price := Some 5%Q;
          Change_pct := Some 0%Q; Volume := Some 12%Z |}.
Proof.
  split; reflexivity.
Qed.

(** Where the formula of the specification is defined it is the change the
    builder reports. *)
Lemma summary_row_agrees_with_spec (name : string) (df : DataFrame) (pct : Q) :
  spec_change_pct (Close df) = Ok pct ->
  exists row, summary_row name (Some df) = Ok row /\ Change_pct row = Some pct.
Proof.
  intros Hspec.
  destruct (rows df) as [| b0 bs] eqn:Hrows.
  - unfold spec_change_pct, Close in Hspec. rewrite Hrows in Hspec.
    discriminate Hspec.
  - destruct (@nonempty_snoc Bar (b0 :: bs)) as [init [b E]]; [discriminate |].
    rewrite E in Hrows.
    revert Hspec. unfold spec_change_pct, Close. rewrite Hrows, map_app.
    cbn [map]. rewrite iloc_last. cbn [bind].
    replace (2 <=? Z.of_nat (List.length (map close init ++ [close b])))%Z
      with (1 <? Z.of_nat (List.length (init ++ [b])))%Z
      by (rewrite !length_app, length_map; simpl;
          destruct init; [reflexivity |];
          transitivity true;
          [apply Z.ltb_lt | symmetry; apply Z.leb_le]; simpl List.length; lia).
    rewrite prev_close_snoc. cbn [bind]. unfold div.
    intros Hspec.
    run_summary_row df init b Hrows.
    destruct (Qeq_bool _ 0); [discriminate Hspec |].
    cbn [bind negb] in Hspec |- *. injection Hspec as <-.
    destruct (has_volume df); eexists; split; reflexivity.
Qed.

(** The builder emits a row for every entry it is given and never raises. *)
Lemma summary_row_total (name : string) (df : option DataFrame) :
  exists row, summary_row name df = Ok row /\ Asset row = name.
Proof.
  destruct df as [df |].
  - destruct (rows df) as [| b0 bs] eqn:Hrows.
    + exists (blank_row name). split; [| reflexivity].
      apply summary_row_empty. unfold empty. rewrite Hrows. reflexivity.
    + destruct (@nonempty_snoc Bar (b0 :: bs)) as [init [b E]]; [discriminate |].
      rewrite E in Hrows.
      run_summary_row df init b Hrows.
      destruct (Qeq_bool _ 0); cbn [negb bind];
        destruct (has_volume df); eexists; split; reflexivity.
  - exists (blank_row name). split; reflexivity.
Qed.

Lemma summary_from_yf_dict_rows (d : dict (option DataFrame)) :
  exists table, summary_from_yf_dict d = Ok table /\ map Asset table = keys d.
Proof.
  induction d as [| [name df] rest [table [Htable Hnames]]]; simpl.
  - exists []. split; reflexivity.
  - destruct (summary_row_total name df) as [row [Hrow Hname]].
    rewrite Hrow, Htable. cbn [bind].
    exists (row :: table). split; [reflexivity |].
    simpl. rewrite Hname, Hnames. reflexivity.
Qed.

(** C1 (defect): the table has a row for each entry of the fetched mapping,
    and the mapping lacks the instruments whose download came back empty,
    so the table is shorter than the catalog; the claim has one row per
    catalog instrument.  With an upstream that has no data for ["GC=F"] the
    commodities table has 15 rows for a catalog of 16, and none for Gold. *)
Theorem summary_table_drops_empty_download :
  exists table,
    summary_from_yf_dict
      (fetch_yfinance download_without_gold keep_rows commodities 30) = Ok table /\
    List.length commodities = 16%nat /\
    List.length table = 15%nat /\
    ~ In "Gold" (map Asset table).
Proof.
  eexists. split; [vm_compute; reflexivity |].
  split; [reflexivity |]. split; [reflexivity |].
  simpl. intros H. repeat destruct H as [H | H]; try discriminate H. exact H.
Qed.

(** ** Currency conversion engine *)

Section ConversionFacts.
Variable fx_data : dict (option DataFrame).
Variable fx_df_for_conv : option (dict (option DataFrame)).

(** The table is the list of the rows of its records, in order; it exists
    exactly when every row does. *)
Lemma compliance_summary_table_rows (d : dict ComplianceMeta) (to_usd : bool)
    (table : list ComplianceRow) :
  compliance_summary_table fx_data d fx_df_for_conv to_usd = Ok table <->
  Forall2 (fun item row =>
             compliance_row fx_data fx_df_for_conv to_usd (fst item) (snd item)
             = Ok row) d table.
Proof.
  revert table. induction d as [| [name meta] rest IH]; simpl; intros table.
  - split.
    + intros H. injection H as <-. constructor.
    + intros H. inversion H. reflexivity.
  - split.
    + intros H. apply bind_Ok_inv in H. destruct H as [row [Hrow H]].
      apply bind_Ok_inv in H. destruct H as [rows' [Hrows H]].
      injection H as <-. constructor; [exact Hrow | apply IH; exact Hrows].
    + intros H. inversion H as [| item row d' rows' Hrow Hrows]; subst.
      simpl in Hrow. rewrite Hrow. cbn [bind].
      apply IH in Hrows. rewrite Hrows. reflexivity.
Qed.

(** C9: with the flag false every row carries the name, unit, local price
    and source note of its record, no USD price and an empty note. *)
Theorem compliance_summary_table_local (d : dict ComplianceMeta) :
  compliance_summary_table fx_data d fx_df_for_conv false =
  Ok (map (fun item =>
             {| Market := fst item;
                Unit := get_default "" (unit_ (snd item));
                Last_Price_local := price (snd item);
                Last_Price_USD := None;
                Source := get_default "" (source_note (snd item));
                Note := "" |}) d).
Proof.
  induction d as [| [name meta] rest IH]; simpl.
  - reflexivity.
  - rewrite IH. unfold compliance_row. reflexivity.
Qed.

(** A record without a price is not converted either. *)
Lemma compliance_row_no_price (to_usd : bool) (name : string)
    (meta : ComplianceMeta) :
  price meta = None ->
  compliance_row fx_data fx_df_for_conv to_usd name meta =
  Ok {| Market := name;
        Unit := get_default "" (unit_ meta);
        Last_Price_local := None;
        Last_Price_USD := None;
        Source := get_default "" (source_note meta);
        Note := "" |}.
Proof.
  intros H. unfold compliance_row. rewrite H. destruct to_usd; reflexivity.
Qed.

Lemma compliance_row_note_iff (to_usd : bool) (name : string)
    (meta : ComplianceMeta) (row : ComplianceRow) :
  compliance_row fx_data fx_df_for_conv to_usd name meta = Ok row ->
  (Last_Price_USD row <> None <-> note_reports_conversion (Note row) = true).
Proof.
  unfold compliance_row, convert_using.
  destruct to_usd; destruct (price meta) as [p |];
    repeat match goal with
           | |- context [if ?b then _ else _] => destruct b
           end;
    repeat match goal with
           | |- context [dict_get fx_data ?k] =>
               destruct (dict_get fx_data k) as [[df |] |]
           | |- context [iloc (Close ?df) ?i] => destruct (iloc (Close df) i)
           end;
    cbn [bind]; intros H; try discriminate H; injection H as <-;
    cbn [Last_Price_USD Note]; split; intros H;
    try discriminate; try reflexivity;
    try (exfalso; apply H; reflexivity);
    try (vm_compute in H; discriminate H).
Qed.

(** C7: in every table the engine produces, a row has a USD price exactly
    when its note says which pair it was converted with. *)
Theorem converted_iff_note (d : dict ComplianceMeta) (to_usd : bool)
    (table : list ComplianceRow) :
  compliance_summary_table fx_data d fx_df_for_conv to_usd = Ok table ->
  Forall (fun row => Last_Price_USD row <> None <->
                     note_reports_conversion (Note row) = true) table.
Proof.
  intros H. apply compliance_summary_table_rows in H.
  induction H as [| item row d' table' Hrow _ IH]; constructor.
  - apply (compliance_row_note_iff _ _ _ Hrow).
  - exact IH.
Qed.

(** C4 (amended): with the flag true, for a record with a price whose unit
    has no NZ$, A$ or KRW tag and whose name has no A$, when the unit has
    an RMB or CNY tag (pair USD/CNY) or else a pound tag (pair GBP/USD) and
    the pair's series is present with a most recent close, the USD price
    is the price times that close rounded to four decimals, and the note
    is "converted using <pair>". *)
Theorem compliance_row_converted (name : string) (meta : ComplianceMeta)
    (unit pair : string) (p rate : Q) (df : DataFrame) :
  price meta = Some p ->
  get_default "" (unit_ meta) = unit ->
  str_in "NZ$" unit = false ->
  str_in "A$" unit = false ->
  str_in "A$" name = false ->
  str_in "KRW" unit = false ->
  (pair = "USD/CNY" /\ str_in "RMB" unit || str_in "CNY" unit = true) \/
  (pair = "GBP/USD" /\ str_in "RMB" unit || str_in "CNY" unit = false /\
   str_in pound unit = true) ->
  dict_get fx_data pair = Some (Some df) ->
  iloc (Close df) (-1) = Ok rate ->
  compliance_row fx_data fx_df_for_conv true name meta =
  Ok {| Market := name;
        Unit := unit;
        Last_Price_local := Some p;
        Last_Price_USD := Some (round (p * rate) 4);
        Source := get_default "" (source_note meta);
        Note := ("converted using " ++ pair)%string |}.
Proof.
  intros Hp Hunit Hnz Hau Hname Hkrw Hpair Hget Hrate.
  unfold compliance_row. rewrite Hp, Hunit, Hnz, Hau, Hname, Hkrw. cbn [orb].
  destruct Hpair as [[-> Hcny] | [-> [Hcny Hgbp]]]; rewrite Hcny; try rewrite Hgbp;
    unfold convert_using; rewrite Hget, Hrate; reflexivity.
Qed.

(** C10 (amended): with the flag true, a record with a price whose unit has
    none of the tags NZ$, A$, KRW, RMB, CNY and pound, and whose name has
    no A$, gets no USD price and an empty note. *)
Theorem compliance_row_untagged (name : string) (meta : ComplianceMeta)
    (unit : string) (p : Q) :
  price meta = Some p ->
  get_default "" (unit_ meta) = unit ->
  str_in "NZ$" unit = false ->
  str_in "A$" unit = false ->
  str_in "KRW" unit = false ->
  str_in "RMB" unit = false ->
  str_in "CNY" unit = false ->
  str_in pound unit = false ->
  str_in "A$" name = false ->
  compliance_row fx_data fx_df_for_conv true name meta =
  Ok {| Market := name;
        Unit := unit;
        Last_Price_local := Some p;
        Last_Price_USD := None;
        Source := get_default "" (source_note meta);
        Note := "" |}.
Proof.
  intros Hp Hunit Hnz Hau Hkrw Hrmb Hcny Hgbp Hname.
  unfold compliance_row.
  rewrite Hp, Hunit, Hnz, Hau, Hname, Hkrw, Hrmb, Hcny, Hgbp.
  reflexivity.
Qed.

(** The currencies that have no pair wired get a note that names the pair
    to add. *)
Lemma compliance_row_unwired (name : string) (meta : ComplianceMeta)
    (unit : string) (p : Q) :
  price meta = Some p ->
  get_default "" (unit_ meta) = unit ->
  str_in "NZ$" unit = true \/ str_in "A$" unit = true \/ str_in "KRW" unit = true ->
  exists row,
    compliance_row fx_data fx_df_for_conv true name meta = Ok row /\
    Last_Price_USD row = None /\
    In (Note row)
       [ "(conversion not available - add USD/NZD pair)";
         "(conversion not available - add USD/AUD pair)";
         "(conversion not available - add USDKRW pair)" ].
Proof.
  intros Hp Hunit Htag. unfold compliance_row. rewrite Hp, Hunit.
  destruct (str_in "NZ$" unit).
  - eexists; split; [reflexivity |]. split; [reflexivity |]. left. reflexivity.
  - destruct (str_in "A$" unit || str_in "A$" name) eqn:Hau.
    + eexists; split; [reflexivity |]. split; [reflexivity |].
      right. left. reflexivity.
    + apply orb_false_iff in Hau. destruct Hau as [Hau _].
      destruct Htag as [H | [H | H]]; try discriminate H.
      * rewrite Hau in H. discriminate H.
      * rewrite H.
        eexists; split; [reflexivity |]. split; [reflexivity |].
        right. right. left. reflexivity.
Qed.

End ConversionFacts.

(** C4 at the record of the specification: price 80 in pounds at a rate of
    1.25 gives 100.0, and 60 renminbi at 0.14 gives 8.4. *)
Lemma compliance_row_converted_witness :
  compliance_row (fx_one_pair "GBP/USD" (5 # 4)) None true "UK ETS" uk_ets_80 =
    Ok {| Market := "UK ETS"; Unit := (pound ++ "/t")%string;
          Last_Price_local := Some 80%Q; Last_Price_USD := Some 100%Q;
          Source := ""; Note := "converted using GBP/USD" |} /\
  compliance_row (fx_one_pair "USD/CNY" (14 # 100)) None true
                 "China National ETS" china_ets_60 =
    Ok {| Market := "China National ETS"; Unit := "RMB/t";
          Last_Price_local := Some 60%Q; Last_Price_USD := Some (42 # 5);
          Source := ""; Note := "converted using USD/CNY" |}.
Proof.
  split.
  - exact (@compliance_row_converted (fx_one_pair "GBP/USD" (5 # 4)) None
             "UK ETS" uk_ets_80 (pound ++ "/t")%string "GBP/USD" 80 (5 # 4)
             (frame_of [(5 # 4, 0%Z)])
             eq_refl eq_refl eq_refl eq_refl eq_refl eq_refl
             (or_intror (conj eq_refl (conj eq_refl eq_refl)))
             eq_refl eq_refl).
  - exact (@compliance_row_converted (fx_one_pair "USD/CNY" (14 # 100)) None
             "China National ETS" china_ets_60 "RMB/t" "USD/CNY" 60 (14 # 100)
             (frame_of [(14 # 100, 0%Z)])
             eq_refl eq_refl eq_refl eq_refl eq_refl eq_refl
             (or_introl (conj eq_refl eq_refl))
             eq_refl eq_refl).
Defined.

(** C4 (as stated, refuted): the USD price is rounded to four decimals, so
    a price of 1 at a rate of 0.00001 is reported as 0 and not as the
    product; and a pound-priced record whose name holds "A$" is not
    converted although GBP/USD is present. *)
Lemma converted_price_is_not_the_plain_product :
  (exists row,
     compliance_row (fx_one_pair "GBP/USD" (1 # 100000)) None true "UK ETS"
       {| price := Some 1%Q; history := None;
          unit_ := Some (pound ++ "/t")%string; source_note := None |} = Ok row /\
     Last_Price_USD row = Some 0%Q /\
     Note row = "converted using GBP/USD" /\
     ~ (0 == 1 * (1 # 100000))%Q) /\
  (exists row,
     compliance_row (fx_one_pair "GBP/USD" (5 # 4)) None true
       uk_named_aud uk_ets_80 = Ok row /\
     Last_Price_USD row = None /\
     Note row = "(conversion not available - add USD/AUD pair)").
Proof.
  split.
  - eexists. split; [vm_compute; reflexivity |].
    split; [reflexivity |]. split; [reflexivity |].
    intros H. discriminate H.
  - eexists. split; [vm_compute; reflexivity |].
    split; reflexivity.
Qed.

(** C3 (defect): with the flag true, a pound-priced record and GBP/USD
    absent from the FX mapping (or present with [None]), and likewise a
    renminbi-priced record with USD/CNY absent, the row has no USD price
    and its note is empty; the claim has the note name the missing pair,
    as the NZ$, A$ and KRW branches do. *)
Theorem missing_series_leaves_note_empty :
  compliance_summary_table [] [("UK ETS", uk_ets_80)] None true =
    Ok [ {| Market := "UK ETS"; Unit := (pound ++ "/t")%string;
            Last_Price_local := Some 80%Q; Last_Price_USD := None;
            Source := ""; Note := "" |} ] /\
  compliance_summary_table [("GBP/USD", None)] [("UK ETS", uk_ets_80)] None true =
    Ok [ {| Market := "UK ETS"; Unit := (pound ++ "/t")%string;
            Last_Price_local := Some 80%Q; Last_Price_USD := None;
            Source := ""; Note := "" |} ] /\
  compliance_summary_table [] [("China National ETS", china_ets_60)] None true =
    Ok [ {| Market := "China National ETS"; Unit := "RMB/t";
            Last_Price_local := Some 60%Q; Last_Price_USD := None;
            Source := ""; Note := "" |} ].
Proof.
  repeat split.
Qed.

(** C7 on a table with a converted and an unconverted row. *)
Lemma converted_iff_note_witness :
  Forall (fun row => Last_Price_USD row <> None <->
                     note_reports_conversion (Note row) = true)
    [ {| Market := "UK ETS"; Unit := (pound ++ "/t")%string;
         Last_Price_local := Some 80%Q; Last_Price_USD := Some 100%Q;
         Source := ""; Note := "converted using GBP/USD" |};
      {| Market := "California (CARB)"; Unit := "US$/t";
         Last_Price_local := Some 30%Q; Last_Price_USD := None;
         Source := ""; Note := "" |} ].
Proof.
  exact (@converted_iff_note (fx_one_pair "GBP/USD" (5 # 4)) None
           [("UK ETS", uk_ets_80); ("California (CARB)", carb_30)] true
           _ eq_refl).
Defined.

(** C10 at a dollar-priced record of the catalog. *)
Lemma compliance_row_untagged_witness :
  compliance_row (fx_one_pair "GBP/USD" (5 # 4)) None true
                 "California (CARB)" carb_30 =
  Ok {| Market := "California (CARB)"; Unit := "US$/t";
        Last_Price_local := Some 30%Q; Last_Price_USD := None;
        Source := ""; Note := "" |}.
Proof.
  exact (@compliance_row_untagged (fx_one_pair "GBP/USD" (5 # 4)) None
           "California (CARB)" carb_30 "US$/t" 30
           eq_refl eq_refl eq_refl eq_refl eq_refl eq_refl eq_refl eq_refl
           eq_refl).
Defined.

(** C10 (as stated, refuted): a dollar-priced record, whose unit has none
    of the tags, gets the note of the A$ branch when its name holds "A$". *)
Lemma untagged_unit_with_aud_name_gets_note :
  str_in "NZ$" "US$/t" = false /\ str_in "A$" "US$/t" = false /\
  str_in "KRW" "US$/t" = false /\ str_in "RMB" "US$/t" = false /\
  str_in "CNY" "US$/t" = false /\ str_in pound "US$/t" = false /\
  compliance_summary_table [] [(carb_named_aud, carb_30)] None true =
    Ok [ {| Market := carb_named_aud; Unit := "US$/t";
            Last_Price_local := Some 30%Q; Last_Price_USD := None;
            Source := "";
            Note := "(conversion not available - add USD/AUD pair)" |} ].
Proof.
  repeat split.
Qed.

(** ** Snapshot report generator *)

Lemma table_rows_uniform (A : Type) (cells : A -> list cell) (n : nat)
    (table : list A) :
  (forall r, List.length (cells r) = n) ->
  forallb (fun row => Nat.eqb (List.length row) n) (map cells table) = true.
Proof.
  intros Hn. induction table as [| r rs IH]; simpl.
  - reflexivity.
  - rewrite Hn, Nat.eqb_refl. exact IH.
Qed.

Lemma ax_table_uniform (A : Type) (cells : A -> list cell) (n : nat)
    (title : string) (colLabels : list string) (table : list A) :
  table <> [] ->
  (forall r, List.length (cells r) = n) ->
  List.length colLabels = n ->
  ax_table title colLabels (map cells table) =
  Ok (TablePage title colLabels (map cells table)).
Proof.
  destruct table as [| r rs]; [intros H; contradiction H; reflexivity |].
  intros _ Hn Hcols. unfold ax_table. cbn [map forallb].
  rewrite Hn, Nat.eqb_refl, (table_rows_uniform cells rs Hn), Hcols, Nat.eqb_refl.
  reflexivity.
Qed.

(** A summary table with rows is drawn. *)
Lemma ax_table_summary (title : string) (table : list SummaryRow) :
  table <> [] ->
  ax_table title (summary_columns table) (summary_values table) =
  Ok (TablePage title (summary_columns table) (summary_values table)).
Proof.
  intros Hrows. unfold summary_values.
  apply (@ax_table_uniform SummaryRow _ 4%nat); [exact Hrows | reflexivity |].
  destruct table; [contradiction Hrows; reflexivity | reflexivity].
Qed.

Lemma ax_table_compliance (title : string) (table : list ComplianceRow) :
  table <> [] ->
  ax_table title (compliance_columns table) (compliance_values table) =
  Ok (TablePage title (compliance_columns table) (compliance_values table)).
Proof.
  intros Hrows. unfold compliance_values.
  apply (@ax_table_uniform ComplianceRow _ 6%nat); [exact Hrows | reflexivity |].
  destruct table; [contradiction Hrows; reflexivity | reflexivity].
Qed.

(** C6 (defect): when every download returns a frame without rows, every
    series is absent: the fetched commodity and FX mappings are empty and
    so are their summary tables; [generate_pdf_snapshot] then hands a
    table without rows to [ax.table] and raises [IndexError], whatever the
    compliance table and whatever a second [close] does.  The claim has it
    return the title page, three blank table pages and the notes page. *)
Theorem snapshot_fails_when_every_download_is_empty
    (close_closed : result unit) (now : string)
    (comp_table : list ComplianceRow) :
  let data := fetch_all_data download_nothing keep_rows 30 in
  let commod_data := fst (fst data) in
  let fx_data := snd (fst data) in
  let compliance_data := snd data in
  commod_data = [] /\ fx_data = [] /\
  nonempty_histories compliance_data = [] /\
  summary_from_yf_dict commod_data = Ok [] /\
  summary_from_yf_dict fx_data = Ok [] /\
  generate_pdf_snapshot close_closed now [] [] comp_table
                        commod_data fx_data compliance_data 30 =
  Raise IndexError.
Proof.
  repeat split.
Qed.

(** ** Aggregation cache *)

Section CacheFacts.
Variable V : Type.
Variable fetch : Z -> Z -> V.

Lemma cached_call_expired (now days : Z) (cache : Cache V) :
  (forall e, entry_of cache days = Some e -> (expires_at e <= now)%Z) ->
  cached_call fetch now days cache = cache_miss fetch now days cache.
Proof.
  intros Hexp. unfold cached_call.
  destruct (entry_of cache days) as [e |]; [| reflexivity].
  specialize (Hexp e eq_refl).
  destruct (Z.ltb_spec now (expires_at e)); [lia | reflexivity].
Qed.

Lemma cached_call_live (now days : Z) (cache : Cache V) (e : CacheEntry V) :
  entry_of cache days = Some e ->
  (now < expires_at e)%Z ->
  cached_call fetch now days cache = (cached_value e, cache).
Proof.
  intros He Hlive. unfold cached_call. rewrite He.
  destruct (Z.ltb_spec now (expires_at e)); [reflexivity | lia].
Qed.

Lemma cache_miss_entry (now days : Z) (cache : Cache V) :
  entry_of (snd (cache_miss fetch now days cache)) days =
  Some {| cached_value := fetch now days; expires_at := (now + ttl)%Z |}.
Proof.
  unfold cache_miss. cbn [snd entry_of]. rewrite Z.eqb_refl. reflexivity.
Qed.

(** A call for one window leaves the entries of the other windows alone. *)
Lemma cached_call_other_window (now days other : Z) (cache : Cache V) :
  other <> days ->
  entry_of (snd (cached_call fetch now other cache)) days = entry_of cache days.
Proof.
  intros Hne. unfold cached_call, cache_miss.
  destruct (entry_of cache other) as [e |].
  - destruct (now <? expires_at e)%Z; [reflexivity |].
    cbn [snd entry_of].
    destruct (Z.eqb_spec days other); [congruence | reflexivity].
  - cbn [snd entry_of].
    destruct (Z.eqb_spec days other); [congruence | reflexivity].
Qed.

End CacheFacts.

(** C8: the memoized fetch-all is keyed by the lookback window alone and
    entries live for 1800 seconds, which is 30 minutes.  After a fetch for
    a window at [t1] (no live entry before), a call for the same window at
    [t2] within the time to live returns the cached result and fetches
    nothing, also when another window was requested in between; a call at
    [t3] after expiry makes exactly one new fetch, returns its result and
    replaces the entry. *)
Theorem fetch_all_data_cache_ttl
    (download_at : Z -> string -> Z -> yf_result)
    (dropna : DataFrame -> DataFrame)
    (cache : Cache (dict (option DataFrame) * dict (option DataFrame) *
                    dict ComplianceMeta))
    (days other t1 t t2 t3 : Z) :
  (forall e, entry_of cache days = Some e -> (expires_at e <= t1)%Z) ->
  other <> days ->
  (t1 <= t2 < t1 + ttl)%Z ->
  (t1 + ttl <= t3)%Z ->
  let call := fetch_all_data_cached download_at dropna in
  let r1 := call t1 days cache in
  let r1' := call t other (snd r1) in
  let r2 := call t2 days (snd r1') in
  let r3 := call t3 days (snd r2) in
  ttl = (30 * 60)%Z /\
  fst r1 = fetch_all_data (download_at t1) dropna days /\
  upstream_log (snd r1) = upstream_log cache ++ [(t1, days)] /\
  fst r2 = fst r1 /\
  snd r2 = snd r1' /\
  fst r3 = fetch_all_data (download_at t3) dropna days /\
  upstream_log (snd r3) = upstream_log (snd r2) ++ [(t3, days)] /\
  entry_of (snd r3) days =
    Some {| cached_value := fetch_all_data (download_at t3) dropna days;
            expires_at := (t3 + ttl)%Z |}.
Proof.
  intros Hfresh Hother Hwithin Hafter call r1 r1' r2 r3.
  set (fetch := fun now days => fetch_all_data (download_at now) dropna days).
  assert (E1 : r1 = cache_miss fetch t1 days cache)
    by (apply cached_call_expired; exact Hfresh).
  assert (Hentry1 : entry_of (snd r1') days =
                    Some {| cached_value := fetch t1 days;
                            expires_at := (t1 + ttl)%Z |}).
  { unfold r1', call, fetch_all_data_cached.
    rewrite cached_call_other_window by exact Hother.
    rewrite E1. apply cache_miss_entry. }
  assert (E2 : r2 = (fetch t1 days, snd r1')).
  { unfold r2, call, fetch_all_data_cached.
    rewrite (cached_call_live _ _ _ Hentry1); [reflexivity |].
    cbn [expires_at]. lia. }
  assert (E3 : r3 = cache_miss fetch t3 days (snd r2)).
  { unfold r3, call, fetch_all_data_cached. apply cached_call_expired.
    rewrite E2. cbn [snd]. rewrite Hentry1.
    intros e He. injection He as <-. cbn [expires_at]. lia. }
  split; [reflexivity |].
  rewrite E3, E2, E1. cbn [fst snd].
  repeat split.
  unfold cache_miss at 1. cbn [snd entry_of]. rewrite Z.eqb_refl. reflexivity.
Qed.

(** C8 from an empty cache: a fetch for 30 days at time 0, one for 7 days
    at time 60, a hit at time 1799 and a new fetch at time 1800. *)
Lemma fetch_all_data_cache_ttl_witness :
  let call := fetch_all_data_cached download_late keep_rows in
  let r1 := call 0%Z 30%Z (empty_cache _) in
  let r1' := call 60%Z 7%Z (snd r1) in
  let r2 := call 1799%Z 30%Z (snd r1') in
  let r3 := call 1800%Z 30%Z (snd r2) in
  fst r2 = fst r1 /\
  upstream_log (snd r2) = [(0%Z, 30%Z); (60%Z, 7%Z)] /\
  upstream_log (snd r3) = [(0%Z, 30%Z); (60%Z, 7%Z); (1800%Z, 30%Z)] /\
  fst r3 = fetch_all_data download_without_gold keep_rows 30.
Proof.
  destruct (@fetch_all_data_cache_ttl download_late keep_rows (empty_cache _)
              30%Z 7%Z 0%Z 60%Z 1799%Z 1800%Z)
    as [_ [_ [_ [Hhit [Hsame [Hnew [Hlog _]]]]]]].
  - intros e He. discriminate He.
  - discriminate.
  - unfold ttl. lia.
  - unfold ttl. lia.
  - cbv zeta. split; [exact Hhit |].
    split; [rewrite Hsame; reflexivity |].
    split; [rewrite Hlog, Hsame; reflexivity | exact Hnew].
Defined.

(* ================================================================== *)
(** * Further properties *)

(** ** Source fetcher: what a lookup in the fetched mapping gives *)

Section FetchLookup.
Variable download : string -> Z -> yf_result.
Variable dropna : DataFrame -> DataFrame.

Lemma fetch_step_get_other (days : Z) (acc : dict (option DataFrame))
    (k name : string) (t : option string) :
  k <> name ->
  dict_get (fetch_yfinance_step download dropna days acc (k, t)) name =
  dict_get acc name.
Proof.
  intros Hne. unfold fetch_yfinance_step.
  destruct t as [t |]; [| reflexivity].
  destruct (download t days) as [msg | [df |]].
  - apply dict_get_set_other. exact Hne.
  - destruct (empty df); [reflexivity |].
    apply dict_get_set_other. exact Hne.
  - reflexivity.
Qed.

Lemma commodities_NoDup : NoDup (keys commodities).
Proof.
  unfold keys, commodities; simpl.
  repeat (constructor; [simpl; intros H; repeat destruct H as [H | H];
                        try discriminate H; try contradiction |]).
  constructor.
Qed.

(** X1: in the mapping [fetch_yfinance] returns, an instrument of the
    catalog is looked up as [None] when its download raised, as the frame
    after [dropna] when the download returned rows, and is not a key when
    it has no ticker or the download returned [None] or no rows. *)
Theorem fetch_yfinance_lookup (tickers : dict (option string)) (days : Z)
    (name : string) (ticker : option string) :
  NoDup (keys tickers) ->
  In (name, ticker) tickers ->
  dict_get (fetch_yfinance download dropna tickers days) name =
  match ticker with
  | None => None
  | Some t =>
      match download t days with
      | yf_raises _ => Some None
      | yf_returns (Some df) =>
          if empty df then None else Some (Some (dropna df))
      | yf_returns None => None
      end
  end.
Proof.
  unfold fetch_yfinance.
  assert (Hstart : dict_get (@nil (string * option DataFrame)) name = None)
    by reflexivity.
  revert Hstart. generalize (@nil (string * option DataFrame)).
  induction tickers as [| [k t] rest IH]; cbn [fold_left keys map fst In];
    intros acc Hacc Hnd Hin.
  - destruct Hin.
  - inversion Hnd as [| k' ks Hk Hks]; subst.
    destruct Hin as [E | Hin].
    + injection E as -> ->.
      rewrite fetch_fold_get_other by exact Hk.
      unfold fetch_yfinance_step.
      destruct ticker as [t |]; [| exact Hacc].
      destruct (download t days) as [msg | [df |]].
      * apply dict_get_set_same.
      * destruct (empty df); [exact Hacc | apply dict_get_set_same].
      * exact Hacc.
    + apply IH; [| exact Hks | exact Hin].
      rewrite fetch_step_get_other; [exact Hacc |].
      intros ->. apply Hk.
      change (In (fst (name, ticker)) (map fst rest)).
      apply in_map. exact Hin.
Qed.


(** X2: the table built from a fetch never raises and lists exactly the
    recorded instruments, in catalog order; it is never longer than the
    catalog. *)
Theorem summary_of_fetch (tickers : dict (option string)) (days : Z) :
  NoDup (keys tickers) ->
  exists table,
    summary_from_yf_dict (fetch_yfinance download dropna tickers days) = Ok table /\
    map Asset table = keys (filter (recorded download days) tickers) /\
    (List.length table <= List.length tickers)%nat.
Proof.
  intros Hnd.
  destruct (summary_from_yf_dict_rows
              (fetch_yfinance download dropna tickers days))
    as [table [Htable Hnames]].
  exists table. split; [exact Htable |].
  assert (Hkeys : map Asset table = keys (filter (recorded download days) tickers)).
  { rewrite Hnames. unfold fetch_yfinance.
    rewrite (@fetch_fold_keys download dropna days tickers []).
    - reflexivity.
    - exact Hnd.
    - intros k _ []. }
  split; [exact Hkeys |].
  rewrite <- (length_map Asset), Hkeys. unfold keys. rewrite length_map.
  apply filter_length_le.
Qed.

End FetchLookup.

Lemma fetch_yfinance_lookup_witness :
  dict_get (fetch_yfinance download_without_gold keep_rows commodities 30) "Gold"
    = None /\
  dict_get (fetch_yfinance download_without_gold keep_rows commodities 30) "Silver"
    = Some (Some (frame_of [(100, 10%Z); (110, 12%Z)])).
Proof.
  split.
  - exact (@fetch_yfinance_lookup download_without_gold keep_rows commodities 30
             "Gold" (Some "GC=F") commodities_NoDup
             (or_intror (or_intror (or_intror (or_intror (or_intror
                (or_introl eq_refl))))))).
  - exact (@fetch_yfinance_lookup download_without_gold keep_rows commodities 30
             "Silver" (Some "SI=F") commodities_NoDup
             (or_intror (or_intror (or_intror (or_intror (or_intror
                (or_intror (or_introl eq_refl)))))))).
Defined.

Lemma summary_of_fetch_witness :
  exists table,
    summary_from_yf_dict
      (fetch_yfinance download_without_gold keep_rows commodities 30) = Ok table /\
    map Asset table =
      keys (filter (recorded download_without_gold 30) commodities) /\
    (List.length table <= List.length commodities)%nat.
Proof.
  exact (@summary_of_fetch download_without_gold keep_rows commodities 30
           commodities_NoDup).
Defined.

(** ** Summary builder: rows against entries *)

(** X3: [summary_from_yf_dict] never raises; it gives one row per entry of
    the mapping, in order and under the entry's name; the row is blank when
    the series is [None] or has no rows, and otherwise has a last price and
    a change, and a volume exactly when the frame has a volume column. *)
Theorem summary_from_yf_dict_table (d : dict (option DataFrame)) :
  exists table,
    summary_from_yf_dict d = Ok table /\
    Forall2 (fun item row =>
               Asset row = fst item /\
               match snd item with
               | None => row = blank_row (fst item)
               | Some df =>
                   if empty df then row = blank_row (fst item)
                   else Last_Price row <> None /\
                        Change_pct row <> None /\
                        (Volume row <> None <-> has_volume df = true)
               end) d table.
Proof.
  induction d as [| [name df] rest [table [Htable Hrows]]].
  - exists []. split; [reflexivity | constructor].
  - cbn [summary_from_yf_dict]. rewrite Htable.
    destruct df as [df |].
    + destruct (rows df) as [| b0 bs] eqn:Hdf.
      * assert (Hempty : empty df = true) by (unfold empty; rewrite Hdf; reflexivity).
        rewrite (summary_row_empty name df Hempty). cbn [bind].
        eexists. split; [reflexivity |].
        constructor; [| exact Hrows].
        cbn [fst snd]. rewrite Hempty. split; reflexivity.
      * destruct (@nonempty_snoc Bar (b0 :: bs)) as [init [b E]]; [discriminate |].
        rewrite E in Hdf.
        assert (Hempty : empty df = false) by exact (empty_snoc df init b Hdf).
        run_summary_row df init b Hdf.
        destruct (Qeq_bool _ 0); cbn [negb bind];
          destruct (has_volume df) eqn:Hvol; cbn [bind];
          (eexists; split; [reflexivity |]; constructor; [| exact Hrows];
           cbn [fst snd]; rewrite Hempty, Hvol;
           cbn [Asset Last_Price Change_pct Volume];
           split; [reflexivity |]; split; [discriminate |];
           split; [discriminate |];
           split; intros H;
           first [ reflexivity | discriminate | discriminate H
                 | exfalso; apply H; reflexivity ]).
    + cbn [summary_row bind].
      eexists. split; [reflexivity |].
      constructor; [| exact Hrows]. split; reflexivity.
Qed.

(** ** Compliance records of a fetch *)

Lemma dict_set_new (V : Type) (d : dict V) (k : string) (v : V) :
  ~ In k (keys d) -> dict_set d k v = d ++ [(k, v)].
Proof.
  induction d as [| [k' v'] rest IH]; simpl; intros Hnew.
  - reflexivity.
  - destruct (String.eqb_spec k' k) as [E | NE].
    + exfalso. apply Hnew. left. exact E.
    + f_equal. apply IH. intros Hin. apply Hnew. right. exact Hin.
Qed.

Section ComplianceRecords.
Variable download : string -> Z -> yf_result.
Variable dropna : DataFrame -> DataFrame.

Lemma fetch_all_data_step_record (days : Z) (acc : dict ComplianceMeta)
    (item : string * MarketMeta) :
  exists rec,
    fetch_all_data_step download days acc item = dict_set acc (fst item) rec /\
    record_of_market item (fst item, rec).
Proof.
  destruct item as [name meta]. unfold fetch_all_data_step, record_of_market.
  cbn [fst snd].
  destruct (ticker meta) as [tick |] eqn:Htick.
  - destruct (truthy (Some tick)) eqn:Htruthy.
    + destruct (download tick days) as [msg | [df |]].
      * eexists. split; [reflexivity |]. cbn.
        repeat split; try discriminate.
        eexists. split; [reflexivity | discriminate].
      * destruct (empty df) eqn:Hempty.
        -- eexists. split; [reflexivity |]. cbn.
           repeat split; try discriminate.
           eexists. split; [reflexivity | discriminate].
        -- destruct (iloc (Close df) (-1)) as [last_price | e].
           ++ eexists. split; [reflexivity |]. cbn.
              repeat split; try discriminate.
              ** intros hist H. injection H as <-. exact Hempty.
              ** eexists. split; [reflexivity | discriminate].
           ++ eexists. split; [reflexivity |]. cbn.
              repeat split; try discriminate.
              eexists. split; [reflexivity | discriminate].
      * eexists. split; [reflexivity |]. cbn.
        repeat split; try discriminate.
        eexists. split; [reflexivity | discriminate].
    + eexists. split; [reflexivity |]. cbn.
      repeat split; try discriminate.
      eexists. split; [reflexivity | discriminate].
  - eexists. split; [reflexivity |]. cbn.
    repeat split; try discriminate.
    eexists. split; [reflexivity | discriminate].
Qed.

Lemma fetch_all_data_fold_records (days : Z) (markets : dict MarketMeta) :
  forall acc : dict ComplianceMeta,
    NoDup (keys markets) ->
    (forall k, In k (keys markets) -> ~ In k (keys acc)) ->
    exists entries,
      fold_left (fetch_all_data_step download days) markets acc = acc ++ entries /\
      Forall2 record_of_market markets entries.
Proof.
  induction markets as [| item rest IH]; cbn [fold_left]; intros acc Hnd Hfresh.
  - exists []. split; [symmetry; apply app_nil_r | constructor].
  - inversion Hnd as [| k ks Hk Hks]; subst.
    destruct (fetch_all_data_step_record days acc item) as [rec [Hstep Hrec]].
    rewrite Hstep, dict_set_new by (apply Hfresh; left; reflexivity).
    destruct (IH (acc ++ [(fst item, rec)]) Hks) as [entries [Hfold Hall]].
    + intros k Hin Hin'. unfold keys in Hin'. rewrite map_app in Hin'.
      apply in_app_or in Hin'. destruct Hin' as [Hacc | [E | []]].
      * apply (Hfresh k); [right; exact Hin | exact Hacc].
      * cbn [fst] in E. subst k. apply Hk. exact Hin.
    + exists ((fst item, rec) :: entries). split.
      * rewrite Hfold, <- app_assoc. reflexivity.
      * constructor; [exact Hrec | exact Hall].
Qed.

(** X4: whatever the upstream does, [fetch_all_data] returns one compliance
    record per market of the catalog, in catalog order and under the
    market's name; each record carries the catalog unit and a non-empty
    source note, has a price exactly when it has a history, which then has
    rows, and a market with no ticker gets the placeholder record. *)
Theorem fetch_all_data_records (days : Z) :
  Forall2 record_of_market compliance_markets
          (snd (fetch_all_data download dropna days)).
Proof.
  unfold fetch_all_data; cbn [snd].
  destruct (fetch_all_data_fold_records days compliance_markets []
              compliance_markets_NoDup) as [entries [Hfold Hall]].
  - intros k _ [].
  - rewrite Hfold. exact Hall.
Qed.

End ComplianceRecords.

(** ** Currency conversion engine: notes, failure and the shipped catalog *)

(** At a New Zealand dollar record the note is one of the three and no USD
    price is given. *)
Lemma compliance_row_unwired_at_nz :
  exists row,
    compliance_row (fx_one_pair "GBP/USD" (5 # 4)) None true
                   "New Zealand (NZ ETS)" nz_ets_50 = Ok row /\
    Last_Price_USD row = None /\
    In (Note row)
       [ "(conversion not available - add USD/NZD pair)";
         "(conversion not available - add USD/AUD pair)";
         "(conversion not available - add USDKRW pair)" ].
Proof.
  exact (@compliance_row_unwired (fx_one_pair "GBP/USD" (5 # 4)) None
           "New Zealand (NZ ETS)" nz_ets_50 "NZ$/t" 50
           eq_refl eq_refl (or_introl eq_refl)).
Defined.

Lemma iloc_last_nonempty (df : DataFrame) :
  empty df = false -> exists c, iloc (Close df) (-1) = Ok c.
Proof.
  unfold empty, Close. destruct (rows df) as [| b0 bs] eqn:Hrows.
  - discriminate.
  - intros _.
    destruct (@nonempty_snoc Bar (b0 :: bs)) as [init [b E]]; [discriminate |].
    rewrite E, map_app. cbn [map]. exists (close b). apply iloc_last.
Qed.

Lemma iloc_last_empty (df : DataFrame) :
  empty df = true -> iloc (Close df) (-1) = Raise IndexError.
Proof.
  unfold empty, Close. destruct (rows df); [reflexivity | discriminate].
Qed.

Section ConversionEdges.
Variable fx_data : dict (option DataFrame).
Variable fx_df_for_conv : option (dict (option DataFrame)).

Lemma convert_using_ok (pair : string) (p : Q) :
  (forall df, dict_get fx_data pair = Some (Some df) -> empty df = false) ->
  exists branch, convert_using fx_data pair p = Ok branch.
Proof.
  intros Hrows. unfold convert_using.
  destruct (dict_get fx_data pair) as [[df |] |].
  - destruct (iloc_last_nonempty df (Hrows df eq_refl)) as [c Hc].
    rewrite Hc. eexists. reflexivity.
  - eexists. reflexivity.
  - eexists. reflexivity.
Qed.

Lemma compliance_row_ok (to_usd : bool) (name : string) (meta : ComplianceMeta) :
  (forall pair df, pair = "USD/CNY" \/ pair = "GBP/USD" ->
                   dict_get fx_data pair = Some (Some df) -> empty df = false) ->
  exists row,
    compliance_row fx_data fx_df_for_conv to_usd name meta = Ok row /\
    Market row = name /\ Last_Price_local row = price meta.
Proof.
  intros Hrows. unfold compliance_row.
  destruct to_usd; destruct (price meta) as [p |];
    try (eexists; split; [reflexivity | split; reflexivity]).
  destruct (convert_using_ok "USD/CNY" p) as [[cny_usd cny_note] Hcny];
    [intros df; apply Hrows; left; reflexivity |].
  destruct (convert_using_ok "GBP/USD" p) as [[gbp_usd gbp_note] Hgbp];
    [intros df; apply Hrows; right; reflexivity |].
  rewrite Hcny, Hgbp.
  repeat match goal with
         | |- context [if ?b then _ else _] => destruct b
         end;
    cbn [bind];
    try destruct cny_usd; try destruct gbp_usd;
    eexists; split; try reflexivity; split; reflexivity.
Qed.

(** X6: when no frame stored under USD/CNY or GBP/USD is without rows, the
    compliance table is produced, for either value of the flag: one row per
    record, in order, under the record's name and with its local price. *)
Theorem compliance_summary_table_ok (d : dict ComplianceMeta) (to_usd : bool) :
  (forall pair df, pair = "USD/CNY" \/ pair = "GBP/USD" ->
                   dict_get fx_data pair = Some (Some df) -> empty df = false) ->
  exists table,
    compliance_summary_table fx_data d fx_df_for_conv to_usd = Ok table /\
    map Market table = keys d /\
    map Last_Price_local table = map (fun item => price (snd item)) d.
Proof.
  intros Hrows.
  induction d as [| [name meta] rest [table [Htable [Hnames Hprices]]]].
  - exists []. repeat split.
  - destruct (compliance_row_ok to_usd name meta Hrows) as [row [Hrow [Hname Hprice]]].
    cbn [compliance_summary_table]. rewrite Hrow, Htable. cbn [bind].
    exists (row :: table). split; [reflexivity |].
    cbn [map keys fst snd]. unfold keys in Hnames.
    rewrite Hname, Hprice, Hnames, Hprices. split; reflexivity.
Qed.

Lemma compliance_row_raises_IndexError (to_usd : bool) (name : string)
    (meta : ComplianceMeta) (e : exn) :
  compliance_row fx_data fx_df_for_conv to_usd name meta = Raise e ->
  e = IndexError.
Proof.
  unfold compliance_row, convert_using.
  destruct to_usd; destruct (price meta) as [p |];
    repeat match goal with
           | |- context [if ?b then _ else _] => destruct b
           end;
    repeat match goal with
           | |- context [dict_get fx_data ?k] =>
               destruct (dict_get fx_data k) as [[df |] |]
           end;
    cbn [bind]; try discriminate;
    unfold iloc;
    repeat match goal with
           | |- context [if ?b then _ else _] => destruct b
           | |- context [nth_error ?l ?n] => destruct (nth_error l n)
           end;
    cbn [bind]; intros H; try discriminate H; injection H as <-; reflexivity.
Qed.

Lemma compliance_summary_table_raises (d : dict ComplianceMeta) (to_usd : bool)
    (name : string) (meta : ComplianceMeta) :
  In (name, meta) d ->
  compliance_row fx_data fx_df_for_conv to_usd name meta = Raise IndexError ->
  compliance_summary_table fx_data d fx_df_for_conv to_usd = Raise IndexError.
Proof.
  intros Hin Hraise.
  induction d as [| [name' meta'] rest IH]; [destruct Hin |].
  cbn [compliance_summary_table].
  destruct (compliance_row fx_data fx_df_for_conv to_usd name' meta')
    as [row | e] eqn:Hrow.
  - destruct Hin as [E | Hin].
    + injection E as -> ->. rewrite Hraise in Hrow. discriminate Hrow.
    + cbn [bind]. rewrite (IH Hin). reflexivity.
  - cbn [bind]. f_equal. exact (compliance_row_raises_IndexError _ _ _ Hrow).
Qed.

(** X7: a frame without rows stored under the pair a record needs makes the
    whole table fail with [IndexError]: with the flag true, a record with
    a price whose unit has no NZ$, A$ or KRW tag and whose name has no A$,
    and whose unit has an RMB or CNY tag (pair USD/CNY) or else a pound tag
    (pair GBP/USD), aborts [compliance_summary_table] when that pair's
    frame is present and empty. *)
Theorem compliance_summary_table_empty_frame (d : dict ComplianceMeta)
    (name : string) (meta : ComplianceMeta) (unit pair : string) (p : Q)
    (df : DataFrame) :
  In (name, meta) d ->
  price meta = Some p ->
  get_default "" (unit_ meta) = unit ->
  str_in "NZ$" unit = false ->
  str_in "A$" unit = false ->
  str_in "A$" name = false ->
  str_in "KRW" unit = false ->
  (pair = "USD/CNY" /\ str_in "RMB" unit || str_in "CNY" unit = true) \/
  (pair = "GBP/USD" /\ str_in "RMB" unit || str_in "CNY" unit = false /\
   str_in pound unit = true) ->
  dict_get fx_data pair = Some (Some df) ->
  empty df = true ->
  compliance_summary_table fx_data d fx_df_for_conv true = Raise IndexError.
Proof.
  intros Hin Hp Hunit Hnz Hau Hname Hkrw Hpair Hget Hempty.
  apply (compliance_summary_table_raises d true name meta Hin).
  unfold compliance_row. rewrite Hp, Hunit, Hnz, Hau, Hname, Hkrw. cbn [orb].
  destruct Hpair as [[-> Hcny] | [-> [Hcny Hgbp]]]; rewrite Hcny; try rewrite Hgbp;
    unfold convert_using; rewrite Hget, (iloc_last_empty df Hempty); reflexivity.
Qed.

(** X8: the table does not depend on the argument [fx_df_for_conv]: the
    rates are read from the module-level [fx_data]. *)
Theorem compliance_summary_table_ignores_argument (d : dict ComplianceMeta)
    (other : option (dict (option DataFrame))) (to_usd : bool) :
  compliance_summary_table fx_data d fx_df_for_conv to_usd =
  compliance_summary_table fx_data d other to_usd.
Proof.
  induction d as [| [name meta] rest IH]; cbn [compliance_summary_table].
  - reflexivity.
  - rewrite IH. reflexivity.
Qed.

End ConversionEdges.

Lemma compliance_summary_table_ok_witness :
  exists table,
    compliance_summary_table (fx_one_pair "GBP/USD" (5 # 4))
      [("UK ETS", uk_ets_80); ("California (CARB)", carb_30)] None true = Ok table /\
    map Market table = ["UK ETS"; "California (CARB)"] /\
    map Last_Price_local table = [Some 80%Q; Some 30%Q].
Proof.
  apply (@compliance_summary_table_ok (fx_one_pair "GBP/USD" (5 # 4)) None
           [("UK ETS", uk_ets_80); ("California (CARB)", carb_30)] true).
  intros pair df [-> | ->] H.
  - discriminate H.
  - injection H as <-. reflexivity.
Defined.

Lemma compliance_summary_table_empty_frame_witness :
  compliance_summary_table fx_gbp_no_rows
    [("California (CARB)", carb_30); ("UK ETS", uk_ets_80)] None true =
  Raise IndexError.
Proof.
  exact (@compliance_summary_table_empty_frame fx_gbp_no_rows None
           [("California (CARB)", carb_30); ("UK ETS", uk_ets_80)]
           "UK ETS" uk_ets_80 (pound ++ "/t")%string "GBP/USD" 80 no_rows
           (or_intror (or_introl eq_refl))
           eq_refl eq_refl eq_refl eq_refl eq_refl eq_refl
           (or_intror (conj eq_refl (conj eq_refl eq_refl)))
           eq_refl eq_refl).
Defined.

(** X5: with the flag true, a record with a price whose unit has an NZ$,
    A$ or KRW tag, or whose name has A$, gets no USD price, whatever the FX
    mapping holds, and a note that names the pair to add: USD/NZD for NZ$,
    else USD/AUD for A$, else USDKRW. *)
Theorem compliance_row_names_missing_pair (fx_data : dict (option DataFrame))
    (fx_df_for_conv : option (dict (option DataFrame)))
    (name : string) (meta : ComplianceMeta) (unit : string) (p : Q) :
  price meta = Some p ->
  get_default "" (unit_ meta) = unit ->
  str_in "NZ$" unit || (str_in "A$" unit || str_in "A$" name) ||
  str_in "KRW" unit = true ->
  compliance_row fx_data fx_df_for_conv true name meta =
  Ok {| Market := name;
        Unit := unit;
        Last_Price_local := Some p;
        Last_Price_USD := None;
        Source := get_default "" (source_note meta);
        Note := if str_in "NZ$" unit
                then "(conversion not available - add USD/NZD pair)"
                else if str_in "A$" unit || str_in "A$" name
                     then "(conversion not available - add USD/AUD pair)"
                     else "(conversion not available - add USDKRW pair)" |}.
Proof.
  intros Hp Hunit Htag. unfold compliance_row. rewrite Hp, Hunit.
  destruct (str_in "NZ$" unit); [reflexivity |].
  destruct (str_in "A$" unit || str_in "A$" name); [reflexivity |].
  cbn [orb] in Htag. rewrite Htag. reflexivity.
Qed.

Lemma compliance_row_names_missing_pair_witness :
  compliance_row (fx_one_pair "GBP/USD" (5 # 4)) None true
                 "New Zealand (NZ ETS)" nz_ets_50 =
    Ok {| Market := "New Zealand (NZ ETS)"; Unit := "NZ$/t";
          Last_Price_local := Some 50%Q; Last_Price_USD := None;
          Source := "";
          Note := "(conversion not available - add USD/NZD pair)" |} /\
  compliance_row (fx_one_pair "GBP/USD" (5 # 4)) None true
                 uk_named_aud uk_ets_80 =
    Ok {| Market := uk_named_aud; Unit := (pound ++ "/t")%string;
          Last_Price_local := Some 80%Q; Last_Price_USD := None;
          Source := "";
          Note := "(conversion not available - add USD/AUD pair)" |}.
Proof.
  split.
  - exact (@compliance_row_names_missing_pair (fx_one_pair "GBP/USD" (5 # 4))
             None "New Zealand (NZ ETS)" nz_ets_50 "NZ$/t" 50
             eq_refl eq_refl eq_refl).
  - exact (@compliance_row_names_missing_pair (fx_one_pair "GBP/USD" (5 # 4))
             None uk_named_aud uk_ets_80 (pound ++ "/t")%string 80
             eq_refl eq_refl eq_refl).
Defined.

(** ** The shipped catalog never reaches a conversion *)

Lemma never_converted_row (fx_data : dict (option DataFrame))
    (fx_df_for_conv : option (dict (option DataFrame))) (to_usd : bool)
    (item : string * MarketMeta) (entry : string * ComplianceMeta) :
  never_converted item = true ->
  record_of_market item entry ->
  exists row,
    compliance_row fx_data fx_df_for_conv to_usd (fst entry) (snd entry) = Ok row /\
    Market row = fst item /\
    Unit row = unit_label (snd item) /\
    Last_Price_USD row = None /\
    Note row = "".
Proof.
  intros Hnever [Hname [Hunit [_ [_ [_ Hstub]]]]].
  unfold compliance_row. rewrite Hunit, Hname. cbn [get_default].
  destruct to_usd;
    [| destruct (price (snd entry)); eexists; repeat split; reflexivity].
  destruct (price (snd entry)) as [p |] eqn:Hp;
    [| eexists; repeat split; reflexivity].
  unfold never_converted in Hnever.
  apply orb_true_iff in Hnever. destruct Hnever as [Hnone | Htags].
  - apply negb_true_iff in Hnone. destruct (Hstub Hnone) as [Hnoprice _].
    discriminate Hnoprice.
  - apply negb_true_iff in Htags.
    repeat match type of Htags with
           | (_ || _ = false) =>
               apply orb_false_iff in Htags;
               let H := fresh "Htag" in destruct Htags as [Htags H]
           end.
    rewrite Htags, Htag4, Htag3, Htag2, Htag1, Htag0, Htag. cbn [orb bind].
    eexists. repeat split; reflexivity.
Qed.

Lemma never_converted_table (fx_data : dict (option DataFrame))
    (fx_df_for_conv : option (dict (option DataFrame))) (to_usd : bool)
    (markets : dict MarketMeta) (entries : dict ComplianceMeta) :
  forallb never_converted markets = true ->
  Forall2 record_of_market markets entries ->
  exists table,
    compliance_summary_table fx_data entries fx_df_for_conv to_usd = Ok table /\
    map Market table = keys markets /\
    map Unit table = map (fun item => unit_label (snd item)) markets /\
    Forall (fun row => Last_Price_USD row = None /\ Note row = "") table.
Proof.
  intros Hall Hrec. induction Hrec as [| item entry markets' entries' Hone _ IH].
  - exists []. repeat split. constructor.
  - cbn [forallb] in Hall. apply andb_true_iff in Hall.
    destruct Hall as [Hitem Hrest].
    destruct (IH Hrest) as [table [Htable [Hnames [Hunits Hnone]]]].
    destruct (never_converted_row fx_data fx_df_for_conv to_usd Hitem Hone)
      as [row [Hrow [Hname [Hunit [Husd Hnote]]]]].
    destruct entry as [name meta]. cbn [fst snd] in Hrow.
    cbn [compliance_summary_table]. rewrite Hrow, Htable. cbn [bind].
    exists (row :: table). split; [reflexivity |].
    cbn [map keys]. unfold keys in Hnames.
    rewrite Hname, Hunit, Hnames, Hunits.
    repeat split. constructor; [split; assumption | exact Hnone].
Qed.

(** X9: with the catalogs as shipped, whatever the upstream returns and
    for either value of the flag, the compliance table shown from a fetch
    is produced, has one row per market in catalog order with the catalog
    unit, and no row has a USD price or a note: the markets that can get a
    price are priced in euro or US dollars, which the conversion does not
    touch. *)
Theorem fetched_compliance_table_is_never_converted
    (download : string -> Z -> yf_result) (dropna : DataFrame -> DataFrame)
    (days : Z) (fx_df_for_conv : option (dict (option DataFrame)))
    (to_usd : bool) :
  exists table,
    compliance_summary_table
      (snd (fst (fetch_all_data download dropna days)))
      (snd (fetch_all_data download dropna days))
      fx_df_for_conv to_usd = Ok table /\
    map Market table = keys compliance_markets /\
    map Unit table = map (fun item => unit_label (snd item)) compliance_markets /\
    Forall (fun row => Last_Price_USD row = None /\ Note row = "") table.
Proof.
  apply never_converted_table; [reflexivity |].
  unfold fetch_all_data; cbn [snd].
  destruct (@fetch_all_data_fold_records download days compliance_markets []
              compliance_markets_NoDup) as [entries [Hfold Hall]].
  - intros k _ [].
  - rewrite Hfold. exact Hall.
Qed.

(** ** Mini price trends *)

Lemma plot_fetched_numbered (cap : nat) (ylabel : option string)
    (items : dict (option DataFrame)) :
  forall i : nat,
    (i < cap)%nat ->
    plot_fetched cap ylabel items i =
    map (fun je => plot_series_in_col (fst je mod 3) (fst (snd je))
                                      (snd (snd je)) ylabel)
        (numbered i (cap - i) (present items)).
Proof.
  unfold numbered.
  induction items as [| [name [df |]] rest IH]; intros i Hi;
    cbn [plot_fetched present flat_map fst snd].
  - rewrite combine_nil. reflexivity.
  - destruct (empty df).
    + cbn [app]. apply IH. exact Hi.
    + cbn [app]. replace (cap - i)%nat with (S (cap - S i)) by lia.
      cbn [seq combine map fst snd].
      destruct (cap <=? S i)%nat eqn:Hcap.
      * apply Nat.leb_le in Hcap.
        replace (cap - S i)%nat with 0%nat by lia. reflexivity.
      * apply Nat.leb_gt in Hcap. f_equal. apply IH. exact Hcap.
  - cbn [app]. apply IH. exact Hi.
Qed.

Lemma plot_histories_numbered (cap : nat) (items : dict ComplianceMeta) :
  forall i : nat,
    (i < cap)%nat ->
    plot_histories cap items i =
    map (fun je => plot_series_in_col
                     (fst je mod 3) (fst (fst (snd je))) (snd (snd je))
                     (Some (get_default "" (unit_ (snd (fst (snd je)))))))
        (numbered i (cap - i) (with_history items)).
Proof.
  unfold numbered.
  induction items as [| [name meta] rest IH]; intros i Hi;
    cbn [plot_histories with_history flat_map fst snd].
  - rewrite combine_nil. reflexivity.
  - destruct (history meta) as [hist |].
    + cbn [app]. replace (cap - i)%nat with (S (cap - S i)) by lia.
      cbn [seq combine map fst snd].
      destruct (cap <=? S i)%nat eqn:Hcap.
      * apply Nat.leb_le in Hcap.
        replace (cap - S i)%nat with 0%nat by lia. reflexivity.
      * apply Nat.leb_gt in Hcap. f_equal. apply IH. exact Hcap.
    + cbn [app]. apply IH. exact Hi.
Qed.

(** X10: the mini charts are those of the first nine commodities and the
    first six FX pairs that have rows, and of the first six compliance
    records that have a history (with or without rows), each class in
    mapping order; within a class the [k]-th chart is drawn in column
    [k mod 3]; FX charts are labelled "Rate" and compliance charts with
    the record's unit. *)
Theorem mini_price_trends_charts (commod_data fx_data : dict (option DataFrame))
    (compliance_data : dict ComplianceMeta) :
  mini_price_trends commod_data fx_data compliance_data =
    map (fun je => plot_series_in_col (fst je mod 3) (fst (snd je))
                                      (snd (snd je)) None)
        (numbered 0 9 (present commod_data)) ++
    map (fun je => plot_series_in_col (fst je mod 3) (fst (snd je))
                                      (snd (snd je)) (Some "Rate"))
        (numbered 0 6 (present fx_data)) ++
    map (fun je => plot_series_in_col
                     (fst je mod 3) (fst (fst (snd je))) (snd (snd je))
                     (Some (get_default "" (unit_ (snd (fst (snd je)))))))
        (numbered 0 6 (with_history compliance_data)) /\
  List.length (mini_price_trends commod_data fx_data compliance_data) =
    (Nat.min 9 (List.length (present commod_data)) +
     Nat.min 6 (List.length (present fx_data)) +
     Nat.min 6 (List.length (with_history compliance_data)))%nat /\
  Forall (fun chart => (chart_col chart < 3)%nat)
         (mini_price_trends commod_data fx_data compliance_data).
Proof.
  assert (E : mini_price_trends commod_data fx_data compliance_data =
    map (fun je => plot_series_in_col (fst je mod 3) (fst (snd je))
                                      (snd (snd je)) None)
        (numbered 0 9 (present commod_data)) ++
    map (fun je => plot_series_in_col (fst je mod 3) (fst (snd je))
                                      (snd (snd je)) (Some "Rate"))
        (numbered 0 6 (present fx_data)) ++
    map (fun je => plot_series_in_col
                     (fst je mod 3) (fst (fst (snd je))) (snd (snd je))
                     (Some (get_default "" (unit_ (snd (fst (snd je)))))))
        (numbered 0 6 (with_history compliance_data))).
  { unfold mini_price_trends.
    rewrite (@plot_fetched_numbered 9 None commod_data 0) by lia.
    rewrite (@plot_fetched_numbered 6 (Some "Rate") fx_data 0) by lia.
    rewrite (@plot_histories_numbered 6 compliance_data 0) by lia.
    reflexivity. }
  split; [exact E |]. rewrite E. split.
  - unfold numbered.
    rewrite !length_app, !length_map, !length_combine, !length_seq. lia.
  - repeat (apply Forall_app; split);
      apply Forall_forall; intros chart Hin;
      apply in_map_iff in Hin; destruct Hin as [je [<- _]];
      cbn [chart_col plot_series_in_col];
      apply Nat.mod_upper_bound; discriminate.
Qed.

(** ** Snapshot report: the document, page by page *)

Lemma add_series_loop_first (title : string) (max_plots : nat)
    (items : dict (option DataFrame)) :
  forall (pdf : list ReportPage) (plotted : nat),
    (plotted < max_plots)%nat ->
    fst (add_series_loop title max_plots items pdf plotted) =
    pdf ++ map (fun e => ChartPage (title ++ " ‚Äî " ++ fst e) (snd e))
               (firstn (max_plots - plotted) (present items)).
Proof.
  induction items as [| [name [df |]] rest IH]; intros pdf plotted Hlt;
    cbn [add_series_loop present flat_map fst snd].
  - rewrite firstn_nil. cbn [map]. symmetry. apply app_nil_r.
  - destruct (empty df).
    + cbn [app]. apply IH. exact Hlt.
    + cbn [app].
      replace (max_plots - plotted)%nat with (S (max_plots - S plotted)) by lia.
      cbn [firstn map fst snd].
      destruct (max_plots <=? S plotted)%nat eqn:Hcap.
      * apply Nat.leb_le in Hcap.
        replace (max_plots - S plotted)%nat with 0%nat by lia.
        reflexivity.
      * apply Nat.leb_gt in Hcap. rewrite IH by exact Hcap.
        unfold savefig. rewrite <- app_assoc. reflexivity.
  - cbn [app]. apply IH. exact Hlt.
Qed.

Lemma hist_dict_fold (compliance_data : dict ComplianceMeta) :
  forall acc : dict (option DataFrame),
    NoDup (keys compliance_data) ->
    (forall k, In k (keys compliance_data) -> ~ In k (keys acc)) ->
    fold_left hist_dict_step compliance_data acc =
    acc ++ map (fun e => (fst e, Some (snd e)))
               (nonempty_histories compliance_data).
Proof.
  induction compliance_data as [| [name meta] rest IH]; intros acc Hnd Hfresh;
    cbn [fold_left nonempty_histories flat_map fst snd].
  - symmetry. apply app_nil_r.
  - inversion Hnd as [| k ks Hk Hks]; subst.
    unfold hist_dict_step at 2.
    destruct (history meta) as [hist |].
    + destruct (empty hist); cbn [negb app].
      * apply IH; [exact Hks |].
        intros k Hin. apply Hfresh. right. exact Hin.
      * rewrite dict_set_new by (apply Hfresh; left; reflexivity).
        rewrite IH.
        -- rewrite <- app_assoc. reflexivity.
        -- exact Hks.
        -- intros k Hin Hin'. unfold keys in Hin'. rewrite map_app in Hin'.
           apply in_app_or in Hin'. destruct Hin' as [Hacc | [E | []]].
           ++ apply (Hfresh k); [right; exact Hin | exact Hacc].
           ++ cbn [fst] in E. subst k. apply Hk. exact Hin.
    + cbn [app]. apply IH; [exact Hks |].
      intros k Hin. apply Hfresh. right. exact Hin.
Qed.

Lemma present_nonempty_histories (compliance_data : dict ComplianceMeta) :
  present (map (fun e => (fst e, Some (snd e)))
               (nonempty_histories compliance_data)) =
  nonempty_histories compliance_data.
Proof.
  induction compliance_data as [| [name meta] rest IH];
    cbn [nonempty_histories flat_map fst snd].
  - reflexivity.
  - destruct (history meta) as [hist |]; [| exact IH].
    destruct (empty hist) eqn:Hempty; [exact IH |].
    cbn [app map present flat_map fst snd]. rewrite Hempty.
    cbn [app]. f_equal. exact IH.
Qed.

(** X11: when each of the three tables has a row, the compliance records
    have distinct names and closing [pdf] a second time is harmless, the
    snapshot is returned and is the title page, the three table pages, a
    chart page for each of the first six commodities that have rows, for
    each of the first six FX pairs that have rows and for each of the first
    six compliance histories that have rows, each class in mapping order,
    and the notes page; its length is five plus the three capped counts. *)
Theorem generate_pdf_snapshot_document (close_closed : result unit)
    (now : string)
    (commod_table fx_table : list SummaryRow) (comp_table : list ComplianceRow)
    (commod_data fx_data : dict (option DataFrame))
    (compliance_data : dict ComplianceMeta) (days : Z) :
  commod_table <> [] ->
  fx_table <> [] ->
  comp_table <> [] ->
  NoDup (keys compliance_data) ->
  close_closed = Ok tt ->
  exists document,
    generate_pdf_snapshot close_closed now commod_table fx_table comp_table
                          commod_data fx_data compliance_data days =
    Ok document /\
    document =
      [ TitlePage "Commodities, FX & Compliance Carbon - Daily Snapshot" now days;
        TablePage "Commodities Summary"
                  (summary_columns commod_table) (summary_values commod_table);
        TablePage "FX Summary" (summary_columns fx_table) (summary_values fx_table);
        TablePage "Compliance Carbon Markets Summary"
                  (compliance_columns comp_table) (compliance_values comp_table) ]
      ++ trend_charts "Commodities Trend" (present commod_data)
      ++ trend_charts "FX Trend" (present fx_data)
      ++ trend_charts "Compliance Market Trends"
                      (nonempty_histories compliance_data)
      ++ [ NotesPage "Notes & Data Sources"
                     (map (fun n => "- " ++ n)%string notes) ] /\
    List.length document =
      (5 + Nat.min 6 (List.length (present commod_data))
         + Nat.min 6 (List.length (present fx_data))
         + Nat.min 6 (List.length (nonempty_histories compliance_data)))%nat.
Proof.
  intros Hcommod Hfx Hcomp Hnd Hclose.
  unfold generate_pdf_snapshot, add_series_page, trend_charts.
  rewrite (ax_table_summary "Commodities Summary" Hcommod).
  rewrite (ax_table_summary "FX Summary" Hfx).
  rewrite (ax_table_compliance "Compliance Carbon Markets Summary" Hcomp).
  rewrite Hclose. cbn [bind].
  eexists. split; [reflexivity |].
  assert (E : forall doc doc' : list ReportPage,
             doc = doc' -> doc = doc' /\
             (List.length doc' =
                (5 + Nat.min 6 (List.length (present commod_data))
                   + Nat.min 6 (List.length (present fx_data))
                   + Nat.min 6 (List.length (nonempty_histories compliance_data)))%nat ->
              List.length doc =
                (5 + Nat.min 6 (List.length (present commod_data))
                   + Nat.min 6 (List.length (present fx_data))
                   + Nat.min 6 (List.length (nonempty_histories compliance_data)))%nat))
    by (intros doc doc' ->; split; [reflexivity | tauto]).
  match goal with
  | |- ?doc = ?doc' /\ _ =>
      destruct (E doc doc') as [Heq Hlen]; [| split; [exact Heq | apply Hlen]]
  end.
  - rewrite (hist_dict_fold compliance_data [] Hnd) by (intros k _ []).
    cbn [app].
    rewrite !add_series_loop_first by lia. cbn [Nat.sub].
    rewrite present_nonempty_histories.
    destruct (nonempty_histories compliance_data) as [| h hs];
      cbn [map firstn]; unfold savefig; cbn [app];
      rewrite <- ?app_assoc; reflexivity.
  - rewrite !length_app, !length_map, !length_firstn. simpl List.length. lia.
Qed.

Lemma generate_pdf_snapshot_document_witness :
  exists document,
    generate_pdf_snapshot (Ok tt) "2026-01-01_0000UTC"
      (one_blank_row "Gold") (one_blank_row "GBP/USD") one_compliance_row
      sample_commod_data [] sample_compliance_data 30 = Ok document /\
    List.length document = 8%nat.
Proof.
  assert (Hnd : NoDup (keys sample_compliance_data)).
  { unfold keys, sample_compliance_data; simpl.
    repeat (constructor; [simpl; intros H; repeat destruct H as [H | H];
                          try discriminate H; try contradiction |]).
    constructor. }
  destruct (@generate_pdf_snapshot_document (Ok tt) "2026-01-01_0000UTC"
              (one_blank_row "Gold") (one_blank_row "GBP/USD")
              one_compliance_row sample_commod_data [] sample_compliance_data 30)
    as [document [Hdoc [_ Hlen]]]; try discriminate; try reflexivity.
  - exact Hnd.
  - exists document. split; [exact Hdoc | exact Hlen].
Defined.

(** ** The fetched keys on the commodities catalog *)

Lemma fetch_yfinance_keys_witness :
  keys (fetch_yfinance download_without_gold keep_rows commodities 30) =
  keys (filter (recorded download_without_gold 30) commodities).
Proof.
  exact (@fetch_yfinance_keys download_without_gold keep_rows commodities 30
           commodities_NoDup).
Defined.

(** ** Snapshot report: the ways it fails *)

(** X15: whatever the series and whatever a second [close] does, the
    snapshot raises [IndexError] and returns no document as soon as one of
    the three tables has no row. *)
Theorem generate_pdf_snapshot_zero_row_table (close_closed : result unit)
    (now : string)
    (commod_table fx_table : list SummaryRow) (comp_table : list ComplianceRow)
    (commod_data fx_data : dict (option DataFrame))
    (compliance_data : dict ComplianceMeta) (days : Z) :
  commod_table = [] \/ fx_table = [] \/ comp_table = [] ->
  generate_pdf_snapshot close_closed now commod_table fx_table comp_table
                        commod_data fx_data compliance_data days =
  Raise IndexError.
Proof.
  intros Hempty. unfold generate_pdf_snapshot.
  destruct commod_table as [| c cs]; [reflexivity |].
  rewrite (@ax_table_summary "Commodities Summary" (c :: cs)) by discriminate.
  cbn [bind].
  destruct fx_table as [| f fs]; [reflexivity |].
  rewrite (@ax_table_summary "FX Summary" (f :: fs)) by discriminate.
  cbn [bind].
  destruct comp_table as [| m ms]; [reflexivity |].
  destruct Hempty as [H | [H | H]]; discriminate H.
Qed.

Lemma generate_pdf_snapshot_zero_row_table_witness :
  generate_pdf_snapshot (Ok tt) "2026-01-01_0000UTC"
    (one_blank_row "Gold") [] one_compliance_row
    sample_commod_data [] sample_compliance_data 30 = Raise IndexError.
Proof.
  exact (@generate_pdf_snapshot_zero_row_table (Ok tt) "2026-01-01_0000UTC"
           (one_blank_row "Gold") [] one_compliance_row
           sample_commod_data [] sample_compliance_data 30
           (or_intror (or_introl eq_refl))).
Defined.

(** X16: the source closes [pdf] inside the [with] block and the block
    closes it again on exit: when closing a closed [PdfPages] raises, the
    snapshot raises on every input and never returns a document. *)
Theorem generate_pdf_snapshot_second_close (close_closed : result unit)
    (e : exn) (now : string)
    (commod_table fx_table : list SummaryRow) (comp_table : list ComplianceRow)
    (commod_data fx_data : dict (option DataFrame))
    (compliance_data : dict ComplianceMeta) (days : Z) :
  close_closed = Raise e ->
  exists e',
    generate_pdf_snapshot close_closed now commod_table fx_table comp_table
                          commod_data fx_data compliance_data days = Raise e' /\
    (commod_table <> [] -> fx_table <> [] -> comp_table <> [] -> e' = e).
Proof.
  intros Hclose. unfold generate_pdf_snapshot. rewrite Hclose.
  destruct commod_table as [| c cs];
    [exists IndexError; split; [reflexivity | intros H; contradiction H; reflexivity] |].
  rewrite (@ax_table_summary "Commodities Summary" (c :: cs)) by discriminate.
  cbn [bind].
  destruct fx_table as [| f fs];
    [exists IndexError; split;
       [reflexivity | intros _ H; contradiction H; reflexivity] |].
  rewrite (@ax_table_summary "FX Summary" (f :: fs)) by discriminate.
  cbn [bind].
  destruct comp_table as [| m ms];
    [exists IndexError; split;
       [reflexivity | intros _ _ H; contradiction H; reflexivity] |].
  rewrite (@ax_table_compliance "Compliance Carbon Markets Summary" (m :: ms))
    by discriminate.
  cbn [bind]. exists e. split; [reflexivity | intros _ _ _; reflexivity].
Qed.

Lemma generate_pdf_snapshot_second_close_witness :
  exists e',
    generate_pdf_snapshot (Raise AttributeError) "2026-01-01_0000UTC"
      (one_blank_row "Gold") (one_blank_row "GBP/USD") one_compliance_row
      sample_commod_data [] sample_compliance_data 30 = Raise e' /\
    e' = AttributeError.
Proof.
  destruct (@generate_pdf_snapshot_second_close (Raise AttributeError)
              AttributeError "2026-01-01_0000UTC"
              (one_blank_row "Gold") (one_blank_row "GBP/USD")
              one_compliance_row sample_commod_data [] sample_compliance_data 30
              eq_refl) as [e' [Hraise He]].
  exists e'. split; [exact Hraise |].
  apply He; discriminate.
Defined.
